(** * Kratix promise controller: bootstrap and lifecycle reconcilers

    A shallow embedding of [controllers/promise_controller.go].  The two
    reconcilers are written as programs over the calls they make on their
    collaborators (API server client, REST mapper, controller manager,
    process environment); a program is run against a handler that answers
    each call.  Properties that hold whatever the collaborators answer are
    stated for every handler; properties about the stored objects are stated
    for the in-memory cluster [handle] defined below. *)

From Stdlib Require Import ZArith List String Ascii Bool Lia.
From stdpp Require Import base strings gmap list.
Import ListNotations.

Local Open Scope string_scope.
Local Open Scope Z_scope.

(** ** Go values *)

(** [time.Duration] counts nanoseconds. *)
Abbreviation Duration := Z (only parsing).
Definition Second : Duration := 1000000000.

(** [strings.ToLower], on ASCII text (kinds, groups and names of API objects
    are ASCII). *)
Definition lower_ascii (c : ascii) : ascii :=
  let n := nat_of_ascii c in
  if ((65 <=? n) && (n <=? 90))%nat then ascii_of_nat (n + 32) else c.

Fixpoint ToLower (s : string) : string :=
  match s with
  | EmptyString => EmptyString
  | String c rest => String (lower_ascii c) (ToLower rest)
  end.

(** [s[lo:hi]] on a string. *)
Definition slice (lo hi : nat) (s : string) : string := substring lo (hi - lo) s.

(** Errors of the API machinery, as far as the controller tells them apart
    ([errors.IsNotFound], [errors.IsAlreadyExists]). *)
Inductive error : Type :=
| ErrNotFound
| ErrAlreadyExists
| ErrOther (msg : string).

Definition IsNotFound (e : error) : bool :=
  match e with ErrNotFound => true | _ => false end.

Definition IsAlreadyExists (e : error) : bool :=
  match e with ErrAlreadyExists => true | _ => false end.

(** A Go pair [(value, err)]. *)
Inductive result (A : Type) : Type :=
| Ok (a : A)
| Err (e : error).
Arguments Ok {A} a.
Arguments Err {A} e.

(** [ctrl.Result]. *)
Record Result : Type := mkResult {
  Requeue : bool;
  RequeueAfter : Duration
}.

(** [ctrl.Result{}] *)
Definition Result_zero : Result := {| Requeue := false; RequeueAfter := 0 |}.

(** ** API objects *)

Abbreviation labels_Set := (gmap string string) (only parsing).

Record NamespacedName : Type := mkNamespacedName {
  Namespace : string;
  Name : string
}.

(** [ctrl.Request] embeds a [types.NamespacedName]. *)
Abbreviation Request := NamespacedName (only parsing).

Record GroupKind : Type := mkGroupKind {
  gk_Group : string;
  gk_Kind : string
}.

Record GroupVersionKind : Type := mkGVK {
  Group : string;
  Version : string;
  Kind : string
}.

Definition GroupKind_of (gvk : GroupVersionKind) : GroupKind :=
  {| gk_Group := Group gvk; gk_Kind := Kind gvk |}.

Record CustomResourceDefinitionVersion : Type := mkCRDVersion {
  ver_Name : string
}.

(** The fields of [apiextensionsv1.CustomResourceDefinition] the controller
    reads. *)
Record CustomResourceDefinition : Type := mkCRD {
  crd_Name : string;
  crd_Group : string;
  crd_Versions : list CustomResourceDefinitionVersion;
  crd_Kind : string;
  crd_Plural : string
}.

(** [unstructured.Unstructured]: type, identity, the metadata the lifecycle
    reconciler reads and writes, and the rest of the document. *)
Record Unstructured : Type := mkUnstructured {
  u_gvk : GroupVersionKind;
  u_Namespace : string;
  u_Name : string;
  u_DeletionTimestamp : option Z;
  u_Finalizers : list string;
  u_Object : string
}.

Record WorkerClusterResource : Type := mkWCR {
  wcr_Unstructured : Unstructured
}.

Record Manifest : Type := mkManifest {
  m_Unstructured : Unstructured
}.

(** [v1alpha1.Promise] *)
Record Promise : Type := mkPromise {
  p_Name : string;
  p_Namespace : string;
  p_XaasCrd : string;                          (* Spec.XaasCrd.Raw *)
  p_ClusterSelector : labels_Set;
  p_XaasRequestPipeline : list string;
  p_WorkerClusterResources : list WorkerClusterResource
}.

(** [v1alpha1.Work] *)
Record Work : Type := mkWork {
  w_Name : string;
  w_Namespace : string;
  w_Replicas : Z;
  w_ClusterSelector : labels_Set;
  w_Manifests : list Manifest                   (* Spec.Workload.Manifests *)
}.

Record PolicyRule : Type := mkPolicyRule {
  APIGroups : list string;
  Resources : list string;
  Verbs : list string
}.

Record ClusterRole : Type := mkClusterRole {
  cr_Name : string;
  cr_Rules : list PolicyRule
}.

Record RoleRef : Type := mkRoleRef {
  rr_Kind : string;
  rr_APIGroup : string;
  rr_Name : string
}.

Record Subject : Type := mkSubject {
  sub_Kind : string;
  sub_Namespace : string;
  sub_Name : string
}.

Record ClusterRoleBinding : Type := mkClusterRoleBinding {
  crb_Name : string;
  crb_RoleRef : RoleRef;
  crb_Subjects : list Subject
}.

Record ServiceAccount : Type := mkServiceAccount {
  sa_Name : string;
  sa_Namespace : string
}.

Record ConfigMap : Type := mkConfigMap {
  cm_Name : string;
  cm_Namespace : string;
  cm_Data : gmap string string
}.

Record VolumeMount : Type := mkVolumeMount {
  MountPath : string;
  vm_Name : string
}.

Record Container : Type := mkContainer {
  c_Name : string;
  c_Image : string;
  c_Command : list string;
  c_VolumeMounts : list VolumeMount
}.

Record KeyToPath : Type := mkKeyToPath {
  ktp_Key : string;
  ktp_Path : string
}.

Inductive VolumeSource : Type :=
| EmptyDir
| ConfigMapSource (name : string) (items : list KeyToPath).

Record Volume : Type := mkVolume {
  vol_Name : string;
  vol_Source : VolumeSource
}.

Inductive RestartPolicy : Type :=
| RestartPolicyAlways
| RestartPolicyOnFailure
| RestartPolicyNever.

Record Pod : Type := mkPod {
  pod_Name : string;
  pod_Namespace : string;
  pod_Labels : gmap string string;
  pod_RestartPolicy : RestartPolicy;
  pod_ServiceAccountName : string;
  pod_Containers : list Container;
  pod_InitContainers : list Container;
  pod_Volumes : list Volume
}.

(** [client.Object]: what the store holds and [client.Create] is given. *)
Inductive Object : Type :=
| ObjPromise (p : Promise)
| ObjCRD (crd : CustomResourceDefinition)
| ObjUnstructured (u : Unstructured)
| ObjWork (w : Work)
| ObjClusterRole (cr : ClusterRole)
| ObjClusterRoleBinding (crb : ClusterRoleBinding)
| ObjServiceAccount (sa : ServiceAccount)
| ObjConfigMap (cm : ConfigMap)
| ObjPod (pod : Pod).

(** Label selectors.  The controller only builds [selection.Equals]
    requirements. *)
Inductive Operator : Type :=
| Equals.

Record Requirement : Type := mkRequirement {
  rq_key : string;
  rq_operator : Operator;
  rq_values : list string
}.

Record ListOptions : Type := mkListOptions {
  lo_Namespace : string;
  lo_LabelSelector : list Requirement
}.

(** The lifecycle reconciler registered for one Promise (the data fields of
    the [dynamicController] struct; client, scheme and logger are handles on
    the collaborators). *)
Record dynamicController : Type := mkDynamicController {
  gvk : GroupVersionKind;
  promiseIdentifier : string;
  promiseClusterSelector : labels_Set;
  xaasRequestPipeline : list string
}.

(** ** metav1 and controllerutil helpers *)

(** [IsZero] of [metav1.Time]: a nil pointer or the zero instant. *)
Definition IsZero (t : option Z) : bool :=
  match t with
  | None => true
  | Some x => x =? 0
  end.

Definition ContainsFinalizer (o : Unstructured) (finalizer : string) : bool :=
  existsb (String.eqb finalizer) (u_Finalizers o).

Definition SetFinalizers (o : Unstructured) (fs : list string) : Unstructured :=
  {| u_gvk := u_gvk o; u_Namespace := u_Namespace o; u_Name := u_Name o;
     u_DeletionTimestamp := u_DeletionTimestamp o;
     u_Finalizers := fs; u_Object := u_Object o |}.

Definition AddFinalizer (o : Unstructured) (finalizer : string) : Unstructured :=
  if ContainsFinalizer o finalizer then o
  else SetFinalizers o (u_Finalizers o ++ [finalizer])%list.

Definition RemoveFinalizer (o : Unstructured) (finalizer : string) : Unstructured :=
  SetFinalizers o
    (List.filter (fun f => negb (String.eqb f finalizer)) (u_Finalizers o)).

(** ** Programs over collaborator calls *)

(** One constructor per call the controller makes; the index is the type of
    the answer.  Log lines are not modelled. *)
Inductive call : Type -> Type :=
| GetPromise (key : NamespacedName) : call (result Promise)
| CreateCRD (crd : CustomResourceDefinition) : call (option error)
| RESTMapping (gk : GroupKind) (version : string) : call (option error)
| Create (obj : Object) : call (option error)
| Complete (forType : GroupVersionKind) (r : dynamicController) : call (option error)
| GetUnstructured (type : GroupVersionKind) (key : NamespacedName) : call (result Unstructured)
| Update (obj : Unstructured) : call (option error)
| ListPods (opts : ListOptions) : call (result (list Pod))
| GetWork (key : NamespacedName) : call (result Work)
| Delete (w : Work) : call (option error)
| Getenv (key : string) : call string
| LookupEnv (key : string) : call (option string)
| NewUUID : call string.

Inductive prog (A : Type) : Type :=
| Ret (a : A)
| Panic (msg : string)
| Vis {X : Type} (c : call X) (k : X -> prog A).
Arguments Ret {A} a.
Arguments Panic {A} msg.
Arguments Vis {A X} c k.

Definition trigger {X : Type} (c : call X) : prog X := Vis c Ret.

Fixpoint bind {A B : Type} (p : prog A) (f : A -> prog B) : prog B :=
  match p with
  | Ret a => f a
  | Panic msg => Panic msg
  | Vis c k => Vis c (fun x => bind (k x) f)
  end.

Notation "x <- c ;; k" := (bind c (fun x => k))
  (at level 100, c at next level, right associativity).

(** A Go run-time panic message for [xs[0]] on an empty slice. *)
Definition index_out_of_range : string :=
  "runtime error: index out of range [0] with length 0".

Definition nil_dereference : string :=
  "runtime error: invalid memory address or nil pointer dereference".

(** ** Running a program *)

(** How a collaborator answers: given the call and its own state, the answer
    and its next state. *)
Definition handler (St : Type) : Type := forall X : Type, call X -> St -> X * St.

(** A call together with the answer it got. *)
Record event : Type := Ev {
  ev_type : Type;
  ev_call : call ev_type;
  ev_resp : ev_type
}.
Arguments Ev {ev_type} ev_call ev_resp.

Inductive outcome (A : Type) : Type :=
| Returned (a : A)
| Panicked (msg : string).
Arguments Returned {A} a.
Arguments Panicked {A} msg.

Record execution (St A : Type) : Type := mkExecution {
  outcome_of : outcome A;
  state_of : St;
  trace_of : list event
}.
Arguments mkExecution {St A}.
Arguments outcome_of {St A}.
Arguments state_of {St A}.
Arguments trace_of {St A}.

Fixpoint run {St A : Type} (h : handler St) (p : prog A) (s : St)
  : execution St A :=
  match p with
  | Ret a => mkExecution (Returned a) s []
  | Panic msg => mkExecution (Panicked msg) s []
  | Vis c k =>
      let r := h _ c s in
      let e := run h (k (fst r)) (snd r) in
      mkExecution (outcome_of e) (state_of e) (Ev c (fst r) :: trace_of e)
  end.

(** The same reconciliation delivered [n] times in a row, each on the state
    the previous one left. *)
Fixpoint redeliver {St A : Type} (h : handler St) (p : prog A) (n : nat) (s : St)
  : St * list event :=
  match n with
  | O => (s, [])
  | S n' =>
      let e := run h p s in
      let rest := redeliver h p n' (state_of e) in
      (fst rest, (trace_of e ++ snd rest)%list)
  end.

(** Reconciliations delivered one after the other, each on the state the
    previous one left. *)
Fixpoint deliver {St A : Type} (h : handler St) (ps : list (prog A)) (s : St)
  : St * list event :=
  match ps with
  | [] => (s, [])
  | p :: rest =>
      let e := run h p s in
      let after := deliver h rest (state_of e) in
      (fst after, (trace_of e ++ snd after)%list)
  end.

(** *** What happened in a trace *)

Definition is_create (e : event) : bool :=
  match ev_call e with Create _ => true | _ => false end.

Definition is_registration (e : event) : bool :=
  match ev_call e with Complete _ _ => true | _ => false end.

Definition is_get_work (e : event) : bool :=
  match ev_call e with GetWork _ => true | _ => false end.

Definition is_delete (e : event) : bool :=
  match ev_call e with Delete _ => true | _ => false end.

Definition is_update (e : event) : bool :=
  match ev_call e with Update _ => true | _ => false end.

(** A pod creation the store accepted: a launched pipeline executor. *)
Definition is_launch (e : event) : bool :=
  match ev_call e in call X return X -> bool with
  | Create (ObjPod _) => fun r => match r with None => true | Some _ => false end
  | _ => fun _ => false
  end (ev_resp e).

(** The executor lookup came back with a non-empty list. *)
Definition found_executor (e : event) : bool :=
  match ev_call e in call X return X -> bool with
  | ListPods _ => fun r => match r with Ok (_ :: _) => true | _ => false end
  | _ => fun _ => false
  end (ev_resp e).

(** The type directory reported the type as missing. *)
Definition type_missing (e : event) : bool :=
  match ev_call e in call X return X -> bool with
  | RESTMapping _ _ => fun r => match r with Some _ => true | None => false end
  | _ => fun _ => false
  end (ev_resp e).

(** The store reported a Work as not found, on lookup or on delete. *)
Definition work_not_found (e : event) : bool :=
  match ev_call e in call X return X -> bool with
  | GetWork _ => fun r => match r with Err ErrNotFound => true | _ => false end
  | Delete _ => fun r => match r with Some ErrNotFound => true | _ => false end
  | _ => fun _ => false
  end (ev_resp e).

(** A Work lookup or delete failed with an error other than not-found. *)
Definition work_other_error (e : event) : bool :=
  match ev_call e in call X return X -> bool with
  | GetWork _ => fun r => match r with Err (ErrAlreadyExists | ErrOther _) => true | _ => false end
  | Delete _ => fun r => match r with Some (ErrAlreadyExists | ErrOther _) => true | _ => false end
  | _ => fun _ => false
  end (ev_resp e).

(** The record submitted by an update does not carry the finalizer. *)
Definition updates_without (finalizer : string) (e : event) : bool :=
  match ev_call e with
  | Update o => negb (ContainsFinalizer o finalizer)
  | _ => false
  end.

(** The answer to the lookup of the reconciled record. *)
Definition fetched (e : event) : option (result Unstructured) :=
  match ev_call e in call X return X -> option (result Unstructured) with
  | GetUnstructured _ _ => fun r => Some r
  | _ => fun _ => None
  end (ev_resp e).

(** The Work or the pod submitted by a creation. *)
Definition submitted_work (e : event) : option Work :=
  match ev_call e with Create (ObjWork w) => Some w | _ => None end.

Definition submitted_pod (e : event) : option Pod :=
  match ev_call e with Create (ObjPod p) => Some p | _ => None end.

(** The answer to the lookup of the reconciled Promise. *)
Definition fetched_promise (e : event) : option (result Promise) :=
  match ev_call e in call X return X -> option (result Promise) with
  | GetPromise _ => fun r => Some r
  | _ => fun _ => None
  end (ev_resp e).

(** The record submitted by an update. *)
Definition updated (e : event) : option Unstructured :=
  match ev_call e with Update o => Some o | _ => None end.

(** An update the store accepted. *)
Definition update_accepted (e : event) : bool :=
  match ev_call e in call X return X -> bool with
  | Update _ => fun r => match r with None => true | Some _ => false end
  | _ => fun _ => false
  end (ev_resp e).

(** ** An in-memory cluster *)

(** Stored objects are keyed by type, namespace and name; cluster-scoped
    objects have the empty namespace. *)
Inductive ObjectType : Type :=
| TPromise | TCRD | TWork | TClusterRole | TClusterRoleBinding
| TServiceAccount | TConfigMap | TPod
| TCustom (type : GroupVersionKind).

Definition gvk_eqb (a b : GroupVersionKind) : bool :=
  String.eqb (Group a) (Group b) && String.eqb (Version a) (Version b)
  && String.eqb (Kind a) (Kind b).

Definition type_eqb (a b : ObjectType) : bool :=
  match a, b with
  | TPromise, TPromise | TCRD, TCRD | TWork, TWork
  | TClusterRole, TClusterRole | TClusterRoleBinding, TClusterRoleBinding
  | TServiceAccount, TServiceAccount | TConfigMap, TConfigMap
  | TPod, TPod => true
  | TCustom g, TCustom g' => gvk_eqb g g'
  | _, _ => false
  end.

Record ObjectKey : Type := mkKey {
  key_type : ObjectType;
  key_namespace : string;
  key_name : string
}.

Definition key_eqb (a b : ObjectKey) : bool :=
  type_eqb (key_type a) (key_type b)
  && String.eqb (key_namespace a) (key_namespace b)
  && String.eqb (key_name a) (key_name b).

Definition keyOf (o : Object) : ObjectKey :=
  match o with
  | ObjPromise p => mkKey TPromise (p_Namespace p) (p_Name p)
  | ObjCRD crd => mkKey TCRD "" (crd_Name crd)
  | ObjUnstructured u => mkKey (TCustom (u_gvk u)) (u_Namespace u) (u_Name u)
  | ObjWork w => mkKey TWork (w_Namespace w) (w_Name w)
  | ObjClusterRole cr => mkKey TClusterRole "" (cr_Name cr)
  | ObjClusterRoleBinding crb => mkKey TClusterRoleBinding "" (crb_Name crb)
  | ObjServiceAccount sa => mkKey TServiceAccount (sa_Namespace sa) (sa_Name sa)
  | ObjConfigMap cm => mkKey TConfigMap (cm_Namespace cm) (cm_Name cm)
  | ObjPod pod => mkKey TPod (pod_Namespace pod) (pod_Name pod)
  end.

Definition has_key (k : ObjectKey) (o : Object) : bool := key_eqb (keyOf o) k.

Definition stored (k : ObjectKey) (objs : list Object) : bool :=
  existsb (has_key k) objs.

Definition store_get (k : ObjectKey) (objs : list Object) : result Object :=
  match List.find (has_key k) objs with
  | Some o => Ok o
  | None => Err ErrNotFound
  end.

Definition store_create (o : Object) (objs : list Object)
  : option error * list Object :=
  if stored (keyOf o) objs then (Some ErrAlreadyExists, objs)
  else (None, (objs ++ [o])%list).

Definition store_delete (k : ObjectKey) (objs : list Object)
  : option error * list Object :=
  if stored k objs
  then (None, List.filter (fun o => negb (has_key k o)) objs)
  else (Some ErrNotFound, objs).

(** An update replaces the stored record; a record whose deletion was
    requested leaves the store with its last finalizer. *)
Definition store_update (u : Unstructured) (objs : list Object)
  : option error * list Object :=
  let k := keyOf (ObjUnstructured u) in
  if stored k objs then
    if negb (IsZero (u_DeletionTimestamp u))
       && (Nat.eqb (List.length (u_Finalizers u)) 0)
    then (None, List.filter (fun o => negb (has_key k o)) objs)
    else (None, List.map (fun o => if has_key k o then ObjUnstructured u else o) objs)
  else (Some ErrNotFound, objs).

Definition as_promise (r : result Object) : result Promise :=
  match r with
  | Ok (ObjPromise p) => Ok p
  | Ok _ => Err ErrNotFound
  | Err e => Err e
  end.

Definition as_unstructured (r : result Object) : result Unstructured :=
  match r with
  | Ok (ObjUnstructured u) => Ok u
  | Ok _ => Err ErrNotFound
  | Err e => Err e
  end.

Definition as_work (r : result Object) : result Work :=
  match r with
  | Ok (ObjWork w) => Ok w
  | Ok _ => Err ErrNotFound
  | Err e => Err e
  end.

Fixpoint pods_of (objs : list Object) : list Pod :=
  match objs with
  | [] => []
  | ObjPod p :: rest => p :: pods_of rest
  | _ :: rest => pods_of rest
  end.

(** Label matching of a selector built from [Equals] requirements. *)
Definition matches (labels : gmap string string) (rq : Requirement) : bool :=
  match rq_operator rq with
  | Equals =>
      match labels !! rq_key rq with
      | Some v => existsb (String.eqb v) (rq_values rq)
      | None => false
      end
  end.

(** A list query that sees every stored pod. *)
Definition list_pods (pods : list Pod) (opts : ListOptions) : result (list Pod) :=
  Ok (List.filter
        (fun p => String.eqb (pod_Namespace p) (lo_Namespace opts)
                  && forallb (matches (pod_Labels p)) (lo_LabelSelector opts))
        pods).

(** The cluster, the manager's registrations, the process environment, the
    UUIDs still to be drawn, and the outages still to come: each request to
    the API server consumes one entry of [faults], and fails with the given
    message without touching the store when the entry is [Some]. *)
Record World : Type := mkWorld {
  objects : list Object;
  restMappings : list GroupVersionKind;
  controllers : list (GroupVersionKind * dynamicController);
  environ : gmap string string;
  uuids : list string;
  faults : list (option string)
}.

Definition set_objects (objs : list Object) (w : World) : World :=
  {| objects := objs; restMappings := restMappings w;
     controllers := controllers w; environ := environ w;
     uuids := uuids w; faults := faults w |}.

Definition set_controllers (cs : list (GroupVersionKind * dynamicController))
    (w : World) : World :=
  {| objects := objects w; restMappings := restMappings w;
     controllers := cs; environ := environ w;
     uuids := uuids w; faults := faults w |}.

Definition set_uuids (us : list string) (w : World) : World :=
  {| objects := objects w; restMappings := restMappings w;
     controllers := controllers w; environ := environ w;
     uuids := us; faults := faults w |}.

Definition set_faults (fs : list (option string)) (w : World) : World :=
  {| objects := objects w; restMappings := restMappings w;
     controllers := controllers w; environ := environ w;
     uuids := uuids w; faults := fs |}.

(** A read of the store, unless the API server is out. *)
Definition api_read {X : Type} (failed : error -> X) (serve : list Object -> X)
    (w : World) : X * World :=
  match faults w with
  | Some msg :: rest => (failed (ErrOther msg), set_faults rest w)
  | None :: rest => (serve (objects w), set_faults rest w)
  | [] => (serve (objects w), w)
  end.

(** A write to the store, unless the API server is out. *)
Definition api_write (serve : list Object -> option error * list Object)
    (w : World) : option error * World :=
  match faults w with
  | Some msg :: rest => (Some (ErrOther msg), set_faults rest w)
  | None :: rest =>
      (fst (serve (objects w)), set_objects (snd (serve (objects w))) (set_faults rest w))
  | [] => (fst (serve (objects w)), set_objects (snd (serve (objects w))) w)
  end.

Definition handle (lookup : list Pod -> ListOptions -> result (list Pod))
  : handler World :=
  fun X c =>
    match c in call X return World -> X * World with
    | GetPromise key =>
        api_read Err
          (fun objs => as_promise (store_get (mkKey TPromise (Namespace key) (Name key)) objs))
    | CreateCRD crd => api_write (store_create (ObjCRD crd))
    | RESTMapping gk version =>
        fun w =>
          (if existsb (fun g => String.eqb (Group g) (gk_Group gk)
                                && String.eqb (Kind g) (gk_Kind gk)
                                && String.eqb (Version g) version)
                      (restMappings w)
           then None else Some (ErrOther "no matches for kind"), w)
    | Create obj => api_write (store_create obj)
    | Complete forType r =>
        fun w => (None, set_controllers (controllers w ++ [(forType, r)])%list w)
    | GetUnstructured type key =>
        api_read Err
          (fun objs =>
             as_unstructured (store_get (mkKey (TCustom type) (Namespace key) (Name key)) objs))
    | Update obj => api_write (store_update obj)
    | ListPods opts => fun w => (lookup (pods_of (objects w)) opts, w)
    | GetWork key =>
        api_read Err
          (fun objs => as_work (store_get (mkKey TWork (Namespace key) (Name key)) objs))
    | Delete work => api_write (store_delete (keyOf (ObjWork work)))
    | Getenv key => fun w => (default "" (environ w !! key), w)
    | LookupEnv key => fun w => (environ w !! key, w)
    | NewUUID =>
        fun w =>
          match uuids w with
          | u :: rest => (u, set_uuids rest w)
          | [] => ("", w)
          end
    end.

(** The query the lifecycle reconciler sends to look for the executors of
    one resource request. *)
Definition executor_query (id : string) : ListOptions :=
  {| lo_Namespace := "default";
     lo_LabelSelector :=
       [ {| rq_key := "kratix-promise-resource-request-id";
            rq_operator := Equals;
            rq_values := [id] |} ] |}.

(** A pod is an executor of the request [id]. *)
Definition executor_of (id : string) (pod : Pod) : Prop :=
  pod_Namespace pod = "default"
  /\ pod_Labels pod !! "kratix-promise-resource-request-id" = Some id.

(** The cluster holds an executor of the request [id]. *)
Definition has_executor (id : string) (w : World) : Prop :=
  exists pod : Pod, In pod (pods_of (objects w)) /\ executor_of id pod.

(** The object submitted by a creation, the registration made, and the
    answers of the process environment. *)
Definition created (e : event) : option Object :=
  match ev_call e with Create o => Some o | _ => None end.

Definition registration (e : event) : option (GroupVersionKind * dynamicController) :=
  match ev_call e with Complete t r => Some (t, r) | _ => None end.

Definition queried_type (e : event) : option (GroupKind * string) :=
  match ev_call e with RESTMapping gk v => Some (gk, v) | _ => None end.

Definition submitted_schema (e : event) : option CustomResourceDefinition :=
  match ev_call e with CreateCRD crd => Some crd | _ => None end.

(** A creation of a Work that the store refused. *)
Definition work_rejected (e : event) : bool :=
  match ev_call e in call X return X -> bool with
  | Create (ObjWork _) => fun r => match r with Some _ => true | None => false end
  | _ => fun _ => false
  end (ev_resp e).

(** A creation of a Work that the store accepted. *)
Definition work_accepted (e : event) : bool :=
  match ev_call e in call X return X -> bool with
  | Create (ObjWork _) => fun r => match r with None => true | Some _ => false end
  | _ => fun _ => false
  end (ev_resp e).

(** The executor lookup failed. *)
Definition lookup_failed (e : event) : bool :=
  match ev_call e in call X return X -> bool with
  | ListPods _ => fun r => match r with Err _ => true | Ok _ => false end
  | _ => fun _ => false
  end (ev_resp e).

(** The answer to the lookup of the pod-identifier variable, and the UUID
    drawn. *)
Definition env_lookup (e : event) : option (option string) :=
  match ev_call e in call X return X -> option (option string) with
  | LookupEnv _ => fun r => Some r
  | _ => fun _ => None
  end (ev_resp e).

Definition drawn_uuid (e : event) : option string :=
  match ev_call e in call X return X -> option string with
  | NewUUID => fun r => Some r
  | _ => fun _ => None
  end (ev_resp e).

(** The answer to a record update. *)
Definition update_answer (e : event) : option (option error) :=
  match ev_call e in call X return X -> option (option error) with
  | Update _ => fun r => Some r
  | _ => fun _ => None
  end (ev_resp e).

(** The Work a delete was asked for, and a delete the store accepted. *)
Definition deleted_work (e : event) : option Work :=
  match ev_call e with Delete w => Some w | _ => None end.

Definition delete_accepted (e : event) : bool :=
  match ev_call e in call X return X -> bool with
  | Delete _ => fun r => match r with None => true | Some _ => false end
  | _ => fun _ => false
  end (ev_resp e).

(** The answer to the Work lookup. *)
Definition work_lookup (e : event) : option (result Work) :=
  match ev_call e in call X return X -> option (result Work) with
  | GetWork _ => fun r => Some r
  | _ => fun _ => None
  end (ev_resp e).

(** The names of the volumes a container mounts. *)
Definition mounted (c : Container) : list string :=
  List.map vm_Name (c_VolumeMounts c).

(** ** Sample objects: the Redis promise *)

Definition redisGvk : GroupVersionKind :=
  {| Group := "redis.redis.opstreelabs.in"; Version := "v1beta1"; Kind := "Redis" |}.

Definition redisCrd : CustomResourceDefinition :=
  {| crd_Name := "redis.redis.redis.opstreelabs.in";
     crd_Group := "redis.redis.opstreelabs.in";
     crd_Versions := [ {| ver_Name := "v1beta1" |} ];
     crd_Kind := "Redis";
     crd_Plural := "redis" |}.

Definition sample_Unmarshal (raw : string) : option CustomResourceDefinition :=
  if String.eqb raw "redis-crd" then Some redisCrd else None.

Definition sample_FormatLabels (labels : gmap string string) : string :=
  match labels !! "env" with
  | Some v => "env=" +:+ v
  | None => ""
  end.

Definition sample_validRequirement (key : string) (op : Operator)
    (vals : list string) : bool :=
  forallb (fun v => Nat.leb (String.length v) 63) vals.

Definition operatorCrd : Unstructured :=
  {| u_gvk := {| Group := "apiextensions.k8s.io"; Version := "v1";
                 Kind := "CustomResourceDefinition" |};
     u_Namespace := ""; u_Name := "redis-operator";
     u_DeletionTimestamp := None; u_Finalizers := [];
     u_Object := "redis operator crd" |}.

Definition operatorDeployment : Unstructured :=
  {| u_gvk := {| Group := "apps"; Version := "v1"; Kind := "Deployment" |};
     u_Namespace := "default"; u_Name := "redis-operator";
     u_DeletionTimestamp := None; u_Finalizers := [];
     u_Object := "redis operator deployment" |}.

Definition redisPromise : Promise :=
  {| p_Name := "redis";
     p_Namespace := "default";
     p_XaasCrd := "redis-crd";
     p_ClusterSelector := {[ "env" := "dev" ]};
     p_XaasRequestPipeline := ["imageA"];
     p_WorkerClusterResources :=
       [ {| wcr_Unstructured := operatorCrd |};
         {| wcr_Unstructured := operatorDeployment |} ] |}.

Definition redisRequest : Request := {| Namespace := "default"; Name := "redis" |}.

Definition redisController (images : list string) : dynamicController :=
  {| gvk := redisGvk;
     promiseIdentifier := "redis-default";
     promiseClusterSelector := {[ "env" := "dev" ]};
     xaasRequestPipeline := images |}.

Definition myRedisRequest : Request := {| Namespace := "default"; Name := "my-redis" |}.

Definition redisFinalizer : string :=
  "finalizers.redis.resource-request.kratix.io/work-cleanup".

Definition myRedis (deleted : option Z) (finalizers : list string) : Unstructured :=
  {| u_gvk := redisGvk; u_Namespace := "default"; u_Name := "my-redis";
     u_DeletionTimestamp := deleted; u_Finalizers := finalizers;
     u_Object := "spec: {mode: standalone}" |}.

Definition myRedisWork : Work :=
  {| w_Name := "redis-default-default-my-redis"; w_Namespace := "default";
     w_Replicas := 1; w_ClusterSelector := {[ "env" := "dev" ]};
     w_Manifests := [ {| m_Unstructured := operatorDeployment |} ] |}.

(** An executor of the request my-redis, as the lifecycle reconciler labels
    it. *)
Definition myRedisExecutor : Pod :=
  {| pod_Name := "request-pipeline-redis-default-0a1b2";
     pod_Namespace := "default";
     pod_Labels :=
       {[ "kratix-promise-id" := "redis-default";
          "kratix-promise-resource-request-id" := "redis-default-default-my-redis" ]};
     pod_RestartPolicy := RestartPolicyOnFailure;
     pod_ServiceAccountName := "redis-default-sa";
     pod_Containers := [];
     pod_InitContainers := [];
     pod_Volumes := [] |}.

Definition world_of (objs : list Object) (types : list GroupVersionKind) : World :=
  {| objects := objs; restMappings := types; controllers := [];
     environ := ∅; uuids := ["3f2a9c1e-0000-4000-8000-000000000000"];
     faults := [] |}.

(** ** The controller *)

Section Controller.

(** Library code and constants the controller uses but does not define:
    - [json.Unmarshal] of the Promise's raw schema into a CRD ([None] on a
      decode error);
    - the constant [v1alpha1.WorkerResourceReplicas];
    - [labels.FormatLabels];
    - the validation [labels.NewRequirement] performs (it returns a nil
      requirement and an error when it rejects its arguments). *)
Variable json_Unmarshal : string -> option CustomResourceDefinition.
Variable WorkerResourceReplicas : Z.
Variable FormatLabels : gmap string string -> string.
Variable validRequirement : string -> Operator -> list string -> bool.

Definition NewRequirement (key : string) (op : Operator) (vals : list string)
  : option Requirement :=
  if validRequirement key op vals
  then Some {| rq_key := key; rq_operator := op; rq_values := vals |}
  else None.

(** *** Promise bootstrap reconciler *)

Definition gvkDoesNotExist (gvk : GroupVersionKind) : prog bool :=
  err <- trigger (RESTMapping (GroupKind_of gvk) (Version gvk)) ;;
  Ret (match err with Some _ => true | None => false end).

Definition controller_rules (group plural : string) : list PolicyRule :=
  [ {| APIGroups := [group]; Resources := [plural];
       Verbs := ["get"; "list"; "update"; "create"; "patch"; "delete"; "watch"] |};
    {| APIGroups := [group]; Resources := [plural +:+ "/finalizers"];
       Verbs := ["update"] |};
    {| APIGroups := [group]; Resources := [plural +:+ "/status"];
       Verbs := ["get"; "update"; "patch"] |};
    {| APIGroups := [""]; Resources := ["configmaps"];
       Verbs := ["create"] |} ].

Definition pipeline_rules (group plural : string) : list PolicyRule :=
  [ {| APIGroups := [group]; Resources := [plural];
       Verbs := ["get"; "list"; "update"; "create"; "patch"] |};
    {| APIGroups := ["platform.kratix.io"]; Resources := ["works"];
       Verbs := ["get"; "update"; "create"; "patch"] |} ].

Definition PromiseReconciler_Reconcile (req : Request)
  : prog (Result * option error) :=
  got <- trigger (GetPromise req) ;;
  match got with
  | Err err =>
      if IsNotFound err then Ret (Result_zero, None)
      else Ret (Result_zero, None)
  | Ok promise =>
  match json_Unmarshal (p_XaasCrd promise) with
  | None => Ret (Result_zero, None)
  | Some crdToCreate =>
  (* an error of the submission is logged, whatever its kind *)
  _ <- trigger (CreateCRD crdToCreate) ;;
  match crd_Versions crdToCreate with
  | [] => Panic index_out_of_range
  | version0 :: _ =>
  let crdToCreateGvk :=
    {| Group := crd_Group crdToCreate;
       Version := ver_Name version0;
       Kind := crd_Kind crdToCreate |} in
  missing <- gvkDoesNotExist crdToCreateGvk ;;
  if (missing : bool) then
    Ret ({| Requeue := false; RequeueAfter := 5 * Second |}, None)
  else
  let promiseIdentifier := p_Name promise +:+ "-" +:+ p_Namespace promise in
  let workToCreate :=
    {| w_Name := promiseIdentifier;
       w_Namespace := "default";
       w_Replicas := WorkerResourceReplicas;
       w_ClusterSelector := p_ClusterSelector promise;
       w_Manifests :=
         List.map (fun u => {| m_Unstructured := wcr_Unstructured u |})
                  (p_WorkerClusterResources promise) |} in
  err <- trigger (Create (ObjWork workToCreate)) ;;
  match err with
  | Some err =>
      if IsAlreadyExists err then Ret (Result_zero, None)
      else Ret (Result_zero, None)
  | None =>
  (* controller RBAC *)
  let cr :=
    {| cr_Name := promiseIdentifier +:+ "-promise-controller";
       cr_Rules := controller_rules (Group crdToCreateGvk) (crd_Plural crdToCreate) |} in
  _ <- trigger (Create (ObjClusterRole cr)) ;;
  let crb :=
    {| crb_Name := promiseIdentifier +:+ "-promise-controller-binding";
       crb_RoleRef := {| rr_Kind := "ClusterRole";
                         rr_APIGroup := "rbac.authorization.k8s.io";
                         rr_Name := cr_Name cr |};
       crb_Subjects := [ {| sub_Kind := "ServiceAccount";
                            sub_Namespace := "kratix-platform-system";
                            sub_Name := "kratix-platform-controller-manager" |} ] |} in
  _ <- trigger (Create (ObjClusterRoleBinding crb)) ;;
  (* pipeline RBAC *)
  let cr :=
    {| cr_Name := promiseIdentifier +:+ "-promise-pipeline";
       cr_Rules := pipeline_rules (Group crdToCreateGvk) (crd_Plural crdToCreate) |} in
  _ <- trigger (Create (ObjClusterRole cr)) ;;
  let crb :=
    {| crb_Name := promiseIdentifier +:+ "-promise-pipeline-binding";
       crb_RoleRef := {| rr_Kind := "ClusterRole";
                         rr_APIGroup := "rbac.authorization.k8s.io";
                         rr_Name := cr_Name cr |};
       crb_Subjects := [ {| sub_Kind := "ServiceAccount";
                            sub_Namespace := "default";
                            sub_Name := promiseIdentifier +:+ "-sa" |} ] |} in
  _ <- trigger (Create (ObjClusterRoleBinding crb)) ;;
  let sa := {| sa_Name := promiseIdentifier +:+ "-sa"; sa_Namespace := "default" |} in
  _ <- trigger (Create (ObjServiceAccount sa)) ;;
  let dynamicController :=
    {| gvk := crdToCreateGvk;
       promiseIdentifier := promiseIdentifier;
       promiseClusterSelector := p_ClusterSelector promise;
       xaasRequestPipeline := p_XaasRequestPipeline promise |} in
  _ <- trigger (Complete crdToCreateGvk dynamicController) ;;
  Ret (Result_zero, None)
  end end end end.

(** *** Resource request lifecycle reconciler *)

Definition requeue_5s : Result :=
  {| Requeue := false; RequeueAfter := 5 * Second |}.

Definition getShortUuid : prog string :=
  envUuid <- trigger (LookupEnv "TEST_PROMISE_CONTROLLER_POD_IDENTIFIER_UUID") ;;
  match envUuid with
  | Some envUuid => Ret envUuid
  | None => u <- trigger NewUUID ;; Ret (slice 0 5 u)
  end.

Definition pipelineHasExecuted (resourceRequestIdentifier : string) : prog bool :=
  match NewRequirement "kratix-promise-resource-request-id" Equals
                       [resourceRequestIdentifier] with
  | None => Panic nil_dereference          (* [*isPromise] on a nil pointer *)
  | Some isPromise =>
      let selector := [isPromise] in
      let listOps := {| lo_Namespace := "default"; lo_LabelSelector := selector |} in
      ol <- trigger (ListPods listOps) ;;
      match ol with
      | Err _ => Ret false
      | Ok items => Ret (0 <? List.length items)%nat
      end
  end.

Definition deleteWork (resourceRequest : Unstructured)
    (workName finalizer : string) : prog (Result * option error) :=
  if ContainsFinalizer resourceRequest finalizer then
    got <- trigger (GetWork {| Namespace := "default"; Name := workName |}) ;;
    match got with
    | Err err =>
        if IsNotFound err then
          upd <- trigger (Update (RemoveFinalizer resourceRequest finalizer)) ;;
          match upd with
          | Some err' => Ret (Result_zero, Some err')
          | None => Ret (requeue_5s, Some err)
          end
        else Ret (requeue_5s, Some err)
    | Ok work =>
        del <- trigger (Delete work) ;;
        match del with
        | Some err =>
            if IsNotFound err then
              upd <- trigger (Update (RemoveFinalizer resourceRequest finalizer)) ;;
              match upd with
              | Some err' => Ret (Result_zero, Some err')
              | None => Ret (requeue_5s, Some err)
              end
            else Ret (requeue_5s, Some err)
        | None => Ret (requeue_5s, None)
        end
    end
  else
    (* requeue to ensure finalizer is removed *)
    Ret (requeue_5s, None).

Definition input_output_metadata : list VolumeMount :=
  [ {| MountPath := "/input"; vm_Name := "input" |};
    {| MountPath := "/output"; vm_Name := "output" |};
    {| MountPath := "/metadata"; vm_Name := "metadata" |} ].

Definition cleanup_finalizer (kind : string) : string :=
  "finalizers." +:+ ToLower kind +:+ ".resource-request.kratix.io/work-cleanup".

Definition dynamicController_Reconcile (r : dynamicController) (req : Request)
  : prog (Result * option error) :=
  let resourceRequestIdentifier :=
    promiseIdentifier r +:+ "-" +:+ Namespace req +:+ "-" +:+ Name req in
  got <- trigger (GetUnstructured (gvk r) req) ;;
  match got with
  | Err err =>
      if IsNotFound err then Ret (Result_zero, None)
      else Ret (Result_zero, None)
  | Ok unstructuredCRD =>
  let finalizer := cleanup_finalizer (Kind (u_gvk unstructuredCRD)) in
  if negb (IsZero (u_DeletionTimestamp unstructuredCRD)) then
    deleteWork unstructuredCRD resourceRequestIdentifier finalizer
  else if negb (ContainsFinalizer unstructuredCRD finalizer) then
    upd <- trigger (Update (AddFinalizer unstructuredCRD finalizer)) ;;
    match upd with
    | Some err => Ret (Result_zero, Some err)
    | None => Ret (Result_zero, None)
    end
  else
  executed <- pipelineHasExecuted resourceRequestIdentifier ;;
  if (executed : bool) then Ret (Result_zero, None)
  else
  let workCreatorCommand :=
    "./work-creator -identifier " +:+ resourceRequestIdentifier
      +:+ " -input-directory /work-creator-files" in
  let configMap :=
    {| cm_Name := "cluster-selectors-" +:+ promiseIdentifier r;
       cm_Namespace := "default";
       cm_Data := {[ "selectors" := FormatLabels (promiseClusterSelector r) ]} |} in
  let resourceRequestCommand :=
    "kubectl get " +:+ ToLower (Kind (gvk r)) +:+ "." +:+ Group (gvk r) +:+ " "
      +:+ Name req +:+ " --namespace " +:+ Namespace req
      +:+ " -oyaml > /output/object.yaml" in
  (* the pod literal is evaluated field by field *)
  shortUuid <- getShortUuid ;;
  writerImage <- trigger (Getenv "WC_IMG") ;;
  match xaasRequestPipeline r with
  | [] => Panic index_out_of_range
  | image0 :: _ =>
  let pod :=
    {| pod_Name := "request-pipeline-" +:+ promiseIdentifier r +:+ "-" +:+ shortUuid;
       pod_Namespace := "default";
       pod_Labels :=
         {[ "kratix-promise-id" := promiseIdentifier r;
            "kratix-promise-resource-request-id" := resourceRequestIdentifier ]};
       pod_RestartPolicy := RestartPolicyOnFailure;
       pod_ServiceAccountName := promiseIdentifier r +:+ "-sa";
       pod_Containers :=
         [ {| c_Name := "writer";
              c_Image := writerImage;
              c_Command := ["sh"; "-c"; workCreatorCommand];
              c_VolumeMounts :=
                [ {| MountPath := "/work-creator-files/input"; vm_Name := "output" |};
                  {| MountPath := "/work-creator-files/metadata"; vm_Name := "metadata" |};
                  {| MountPath := "/work-creator-files/kratix-system";
                     vm_Name := "promise-cluster-selectors" |} ] |} ];
       pod_InitContainers :=
         [ {| c_Name := "reader";
              c_Image := "bitnami/kubectl:1.20.10";
              c_Command := ["sh"; "-c"; resourceRequestCommand];
              c_VolumeMounts := [ {| MountPath := "/output"; vm_Name := "input" |} ] |};
           {| c_Name := "xaas-request-pipeline-stage-1";
              c_Image := image0;
              c_Command := [];
              c_VolumeMounts := input_output_metadata |} ];
       pod_Volumes :=
         [ {| vol_Name := "input"; vol_Source := EmptyDir |};
           {| vol_Name := "output"; vol_Source := EmptyDir |};
           {| vol_Name := "metadata"; vol_Source := EmptyDir |};
           {| vol_Name := "promise-cluster-selectors";
              vol_Source :=
                ConfigMapSource ("cluster-selectors-" +:+ promiseIdentifier r)
                  [ {| ktp_Key := "selectors"; ktp_Path := "promise-cluster-selectors" |} ] |} ] |} in
  (* creation errors are logged only *)
  _ <- trigger (Create (ObjConfigMap configMap)) ;;
  _ <- trigger (Create (ObjPod pod)) ;;
  Ret (Result_zero, None)
  end end.

(** ** Properties *)

(** Answer the next call of the program with whatever the handler says. *)
Ltac answer h :=
  match goal with
  | |- context [h ?X ?c ?s] =>
      is_var s;
      let x := fresh "x" in
      let s' := fresh "s" in
      destruct (h X c s) as [x s']; cbn [fst snd] in *
  end.

(** ** C3 *)

(** C3. A bootstrap reconciliation that finds the new type missing from the
    type directory submits no Work, no RBAC object and no service account
    (no creation at all), registers no lifecycle reconciler, and returns a
    retry after 5 seconds with no error; whatever the collaborators answer. *)
Theorem C3_type_propagation_gate :
  forall (St : Type) (h : handler St) (s : St) (req : Request),
    let e := run h (PromiseReconciler_Reconcile req) s in
    existsb type_missing (trace_of e) = true ->
    existsb is_create (trace_of e) = false
    /\ existsb is_registration (trace_of e) = false
    /\ outcome_of e
       = Returned ({| Requeue := false; RequeueAfter := 5 * Second |}, None).
Proof.
  intros St h s req e. subst e.
  unfold PromiseReconciler_Reconcile, gvkDoesNotExist.
  cbn. answer h. destruct x as [promise|err]; cbn.
  2:{ destruct (IsNotFound err); cbn; discriminate. }
  destruct (json_Unmarshal (p_XaasCrd promise)) as [crd|]; cbn; [|discriminate].
  answer h.
  destruct (crd_Versions crd) as [|version0 versions]; cbn; [discriminate|].
  answer h. destruct x0 as [missing|]; cbn.
  - intros _. repeat split; reflexivity.
  - answer h. destruct x0 as [err|]; cbn.
    + destruct (IsAlreadyExists err); cbn; discriminate.
    + repeat (answer h; cbn). discriminate.
Qed.

(** ** C5 *)

(** C5. Whatever the collaborators answer, every Work the bootstrap
    reconciler submits for a fetched Promise is named
    <promise-name>-<promise-namespace>, lives in namespace default, has
    replicas [WorkerResourceReplicas], the Promise's cluster selector and the
    Promise's worker cluster resources as manifests, in order; and a
    bootstrap that went through to the registration of the lifecycle
    reconciler submitted exactly one such Work. *)
Theorem C5_promise_work :
  forall (St : Type) (h : handler St) (s : St) (req : Request) (promise : Promise),
    let e := run h (PromiseReconciler_Reconcile req) s in
    omap fetched_promise (trace_of e) = [Ok promise] ->
    (forall w : Work, In w (omap submitted_work (trace_of e)) ->
        w_Name w = p_Name promise +:+ "-" +:+ p_Namespace promise
        /\ w_Namespace w = "default"
        /\ w_Replicas w = WorkerResourceReplicas
        /\ w_ClusterSelector w = p_ClusterSelector promise
        /\ List.map m_Unstructured (w_Manifests w)
           = List.map wcr_Unstructured (p_WorkerClusterResources promise))
    /\ (existsb is_registration (trace_of e) = true ->
        exists w : Work, omap submitted_work (trace_of e) = [w]).
Proof.
  intros St h s req promise e. subst e.
  unfold PromiseReconciler_Reconcile, gvkDoesNotExist.
  cbn. answer h. destruct x as [promise'|err]; cbn.
  2:{ destruct (IsNotFound err); cbn; discriminate. }
  destruct (json_Unmarshal (p_XaasCrd promise')) as [crd|]; cbn.
  2:{ intros _. split; [intros w []|discriminate]. }
  answer h.
  destruct (crd_Versions crd) as [|version0 versions]; cbn.
  { intros _. split; [intros w []|discriminate]. }
  answer h. destruct x0 as [missing|]; cbn.
  { intros _. split; [intros w []|discriminate]. }
  answer h.
  assert (Hfields : forall p w,
    [@Ok Promise promise'] = [Ok p] ->
    {| w_Name := p_Name promise' +:+ "-" +:+ p_Namespace promise';
       w_Namespace := "default";
       w_Replicas := WorkerResourceReplicas;
       w_ClusterSelector := p_ClusterSelector promise';
       w_Manifests :=
         List.map (fun u => {| m_Unstructured := wcr_Unstructured u |})
           (p_WorkerClusterResources promise') |} = w \/ False ->
    w_Name w = p_Name p +:+ "-" +:+ p_Namespace p
    /\ w_Namespace w = "default"
    /\ w_Replicas w = WorkerResourceReplicas
    /\ w_ClusterSelector w = p_ClusterSelector p
    /\ List.map m_Unstructured (w_Manifests w)
       = List.map wcr_Unstructured (p_WorkerClusterResources p)).
  { intros p w Hp [<-|[]]. injection Hp as ->. cbn.
    repeat split. rewrite List.map_map. reflexivity. }
  destruct x0 as [err|]; cbn.
  - destruct (IsAlreadyExists err); cbn; intros Hp;
      (split; [intros w Hw; exact (Hfields _ _ Hp Hw)|discriminate]).
  - repeat (answer h; cbn). intros Hp.
    split; [intros w Hw; exact (Hfields _ _ Hp Hw)|].
    intros _. eexists. reflexivity.
Qed.

(** ** The lifecycle reconciler, call by call *)

(** Case analysis on the next scrutinee of the program under execution. *)
Ltac branch h :=
  first
    [ answer h
    | match goal with
      | |- context [IsNotFound ?e] => destruct (IsNotFound e) eqn:?
      | |- context [NewRequirement ?k ?o ?v] => destruct (NewRequirement k o v) eqn:?
      | |- context [match List.length ?l with O => _ | S _ => _ end] =>
          is_var l; destruct l as [|? ?]
      | |- context [xaasRequestPipeline ?r] => destruct (xaasRequestPipeline r) eqn:?
      | |- context [match ?x with Ok _ => _ | Err _ => _ end] => destruct x as [?|?]
      | |- context [match ?x with Some _ => _ | None => _ end] => destruct x as [?|]
      | |- context [match ?x with nil => _ | cons _ _ => _ end] => destruct x as [|? ?]
      end ];
  cbn.

(** The record the reconciler works on is the answer to its first call. *)
Lemma fetched_first :
  forall (St : Type) (h : handler St) (s : St)
         (r : dynamicController) (req : Request) (u : Unstructured),
    omap fetched (trace_of (run h (dynamicController_Reconcile r req) s)) = [Ok u] ->
    fst (h _ (GetUnstructured (gvk r) req) s) = Ok u.
Proof.
  intros St h s r req u.
  unfold dynamicController_Reconcile, deleteWork, pipelineHasExecuted.
  cbn. answer h. destruct x as [u'|err]; cbn.
  2:{ destruct (IsNotFound err); cbn; congruence. }
  destruct (negb (IsZero (u_DeletionTimestamp u'))); cbn.
  - destruct (ContainsFinalizer u' _); cbn; repeat branch h; congruence.
  - destruct (negb (ContainsFinalizer u' _)); cbn; repeat branch h; congruence.
Qed.

(** ** C9 *)

(** C9 (amended). For a record whose deletion was requested and which does
    not carry the cleanup finalizer, the reconciliation makes no call after
    the record lookup (no Work lookup, no Work deletion, no record update)
    and returns no error, but it does signal a retry after 5 seconds. *)
Theorem C9_deleted_without_finalizer :
  forall (St : Type) (h : handler St) (s : St)
         (r : dynamicController) (req : Request) (u : Unstructured),
    let e := run h (dynamicController_Reconcile r req) s in
    omap fetched (trace_of e) = [Ok u] ->
    IsZero (u_DeletionTimestamp u) = false ->
    ContainsFinalizer u
      ("finalizers." +:+ ToLower (Kind (u_gvk u))
         +:+ ".resource-request.kratix.io/work-cleanup") = false ->
    List.length (trace_of e) = 1%nat
    /\ existsb is_get_work (trace_of e) = false
    /\ existsb is_delete (trace_of e) = false
    /\ existsb is_update (trace_of e) = false
    /\ outcome_of e
       = Returned ({| Requeue := false; RequeueAfter := 5 * Second |}, None).
Proof.
  intros St h s r req u e Hu Hdel Hfin. subst e.
  apply fetched_first in Hu. revert Hu.
  unfold dynamicController_Reconcile, deleteWork, cleanup_finalizer.
  cbn. answer h. intros ->. cbn.
  rewrite Hdel, Hfin. cbn. repeat split; reflexivity.
Qed.

(** ** C10 *)

(** C10. The launch path reads element 0 of the pipeline images without a
    bounds check.  For a record that is not deleted and carries the cleanup
    finalizer, when the executor lookup did not come back with an executor
    and the Promise declares no pipeline image, the reconciliation panics
    and has created nothing.  When the Promise declares at least one image
    (and the label requirement of the lookup was accepted), the
    reconciliation returns, whatever the collaborators answer. *)
Theorem C10_empty_pipeline_panics :
  (forall (St : Type) (h : handler St) (s : St)
          (r : dynamicController) (req : Request) (u : Unstructured),
     let e := run h (dynamicController_Reconcile r req) s in
     omap fetched (trace_of e) = [Ok u] ->
     IsZero (u_DeletionTimestamp u) = true ->
     ContainsFinalizer u
       ("finalizers." +:+ ToLower (Kind (u_gvk u))
          +:+ ".resource-request.kratix.io/work-cleanup") = true ->
     existsb found_executor (trace_of e) = false ->
     xaasRequestPipeline r = [] ->
     (exists msg : string, outcome_of e = Panicked msg)
     /\ existsb is_create (trace_of e) = false)
  /\
  (forall (St : Type) (h : handler St) (s : St)
          (r : dynamicController) (req : Request),
     let e := run h (dynamicController_Reconcile r req) s in
     xaasRequestPipeline r <> [] ->
     validRequirement "kratix-promise-resource-request-id" Equals
       [promiseIdentifier r +:+ "-" +:+ Namespace req +:+ "-" +:+ Name req] = true ->
     exists res : Result * option error, outcome_of e = Returned res).
Proof.
  split.
  - intros St h s r req u e Hu Hdel Hfin Hnone Himages. subst e.
    apply fetched_first in Hu. revert Hu Hnone.
    unfold dynamicController_Reconcile, pipelineHasExecuted, cleanup_finalizer.
    cbn. answer h. intros ->. cbn.
    rewrite Hdel, Hfin, Himages. cbn.
    destruct (NewRequirement _ _ _); cbn; [|eauto].
    answer h. destruct x as [[|pod pods]|err]; cbn;
      try discriminate; repeat branch h; eauto.
  - intros St h s r req e Himages Hvalid. subst e.
    unfold dynamicController_Reconcile, deleteWork, pipelineHasExecuted,
      NewRequirement.
    rewrite Hvalid.
    cbn. answer h. destruct x as [u|err]; cbn.
    2:{ destruct (IsNotFound err); cbn; eauto. }
    destruct (negb (IsZero (u_DeletionTimestamp u))); cbn.
    + destruct (ContainsFinalizer u _); cbn; repeat branch h; eauto.
    + destruct (negb (ContainsFinalizer u _)); cbn.
      * repeat branch h; eauto.
      * answer h. destruct x as [[|pod pods]|err]; cbn; eauto;
          destruct (xaasRequestPipeline r) as [|image0 images];
          try congruence; repeat branch h; eauto.
Qed.

(** ** C6 *)

(** C6 (amended). The cleanup finalizer of a record of kind K is the string
    finalizers.<lowercase K>.resource-request.kratix.io/work-cleanup: a
    record that is not deleted and lacks it gets exactly one update, which
    adds that string, and every update the reconciler submits either adds or
    removes that string and changes nothing else. *)
Theorem C6_finalizer_token :
  forall (St : Type) (h : handler St) (s : St)
         (r : dynamicController) (req : Request) (u : Unstructured),
    let e := run h (dynamicController_Reconcile r req) s in
    let token := "finalizers." +:+ ToLower (Kind (u_gvk u))
                   +:+ ".resource-request.kratix.io/work-cleanup" in
    omap fetched (trace_of e) = [Ok u] ->
    (IsZero (u_DeletionTimestamp u) = true ->
     ContainsFinalizer u token = false ->
     omap updated (trace_of e) = [AddFinalizer u token])
    /\ (forall o : Unstructured, In o (omap updated (trace_of e)) ->
        o = AddFinalizer u token \/ o = RemoveFinalizer u token).
Proof.
  intros St h s r req u e token Hu. subst e token.
  apply fetched_first in Hu. revert Hu.
  unfold dynamicController_Reconcile, deleteWork, pipelineHasExecuted,
    cleanup_finalizer.
  cbn. answer h. intros ->. cbn.
  destruct (IsZero (u_DeletionTimestamp u)); cbn.
  - destruct (ContainsFinalizer u _); cbn.
    + split; [discriminate|].
      repeat branch h; intros o []; try discriminate.
    + answer h. split; [destruct x; reflexivity|].
      destruct x; cbn; intros o [<-|[]]; left; reflexivity.
  - split; [discriminate|].
    destruct (ContainsFinalizer u _); cbn; [|intros o []].
    repeat branch h; intros o Ho; cbn in Ho;
      repeat (destruct Ho as [<-|Ho]; [right; reflexivity|]); destruct Ho.
Qed.

(** ** C7 *)

(** C7 (amended). Every executor the reconciler submits has exactly two
    init stages and one container: the synthesized reader, then a single
    stage xaas-request-pipeline-stage-1 running element 0 of the declared
    pipeline images with the input, output and metadata areas mounted, then
    the writer.  Declared images after the first are not run. *)
Theorem C7_single_pipeline_stage :
  forall (St : Type) (h : handler St) (s : St)
         (r : dynamicController) (req : Request) (pod : Pod),
    let e := run h (dynamicController_Reconcile r req) s in
    In pod (omap submitted_pod (trace_of e)) ->
    exists (image0 : string) (images : list string) (reader : Container),
      xaasRequestPipeline r = image0 :: images
      /\ pod_InitContainers pod
         = [ reader;
             {| c_Name := "xaas-request-pipeline-stage-1";
                c_Image := image0;
                c_Command := [];
                c_VolumeMounts :=
                  [ {| MountPath := "/input"; vm_Name := "input" |};
                    {| MountPath := "/output"; vm_Name := "output" |};
                    {| MountPath := "/metadata"; vm_Name := "metadata" |} ] |} ]
      /\ c_Name reader = "reader"
      /\ List.map c_Name (pod_Containers pod) = ["writer"].
Proof.
  intros St h s r req pod e. subst e.
  unfold dynamicController_Reconcile, deleteWork, pipelineHasExecuted.
  cbn. answer h. destruct x as [u|err]; cbn.
  2:{ destruct (IsNotFound err); cbn; intros []. }
  destruct (negb (IsZero (u_DeletionTimestamp u))); cbn.
  { destruct (ContainsFinalizer u _); cbn; repeat branch h; intros []. }
  destruct (negb (ContainsFinalizer u _)); cbn.
  { repeat branch h; intros []. }
  repeat branch h; intros Hin; try (destruct Hin; fail);
    destruct Hin as [<-|[]]; cbn; do 3 eexists; repeat split; reflexivity.
Qed.

(** ** The in-memory cluster, call by call *)

Lemma gvk_eqb_eq (a b : GroupVersionKind) : gvk_eqb a b = true <-> a = b.
Proof.
  unfold gvk_eqb. destruct a as [g v k], b as [g' v' k']; cbn.
  rewrite !andb_true_iff, !String.eqb_eq. split.
  - intros [[-> ->] ->]. reflexivity.
  - intros [= -> -> ->]. auto.
Qed.

Lemma type_eqb_eq (a b : ObjectType) : type_eqb a b = true <-> a = b.
Proof.
  destruct a, b; cbn; try (split; [discriminate|congruence]);
    try (split; reflexivity).
  rewrite gvk_eqb_eq. split; congruence.
Qed.

Lemma key_eqb_eq (a b : ObjectKey) : key_eqb a b = true <-> a = b.
Proof.
  unfold key_eqb. destruct a as [t ns n], b as [t' ns' n']; cbn.
  rewrite !andb_true_iff, !String.eqb_eq, type_eqb_eq. split.
  - intros [[-> ->] ->]. reflexivity.
  - intros [= -> -> ->]. auto.
Qed.

Lemma has_key_eq (k : ObjectKey) (o : Object) : has_key k o = true <-> keyOf o = k.
Proof. apply key_eqb_eq. Qed.

Lemma stored_filter_out (k : ObjectKey) (objs : list Object) :
  stored k (List.filter (fun o => negb (has_key k o)) objs) = false.
Proof.
  unfold stored. induction objs as [|o objs IH]; cbn; [reflexivity|].
  destruct (has_key k o) eqn:Hk; cbn; [exact IH|].
  rewrite Hk, IH. reflexivity.
Qed.

Lemma stored_filter_other (k k' : ObjectKey) (objs : list Object) :
  k <> k' ->
  stored k (List.filter (fun o => negb (has_key k' o)) objs) = stored k objs.
Proof.
  intros Hne. unfold stored. induction objs as [|o objs IH]; cbn; [reflexivity|].
  destruct (has_key k' o) eqn:Hk'; cbn.
  - destruct (has_key k o) eqn:Hk; cbn; [|exact IH].
    apply has_key_eq in Hk, Hk'. congruence.
  - rewrite IH. reflexivity.
Qed.

Lemma stored_replace (k : ObjectKey) (o' : Object) (objs : list Object) :
  stored k (List.map (fun o => if has_key (keyOf o') o then o' else o) objs)
  = stored k objs.
Proof.
  unfold stored. induction objs as [|o objs IH]; cbn; [reflexivity|].
  rewrite IH. f_equal.
  destruct (has_key (keyOf o') o) eqn:Hk; [|reflexivity].
  apply has_key_eq in Hk. unfold has_key. rewrite Hk. reflexivity.
Qed.

(** An update of a record leaves the objects of every other key in place. *)
Lemma stored_update (k : ObjectKey) (u : Unstructured) (objs : list Object) :
  k <> keyOf (ObjUnstructured u) ->
  stored k (snd (store_update u objs)) = stored k objs.
Proof.
  intros Hne. unfold store_update.
  destruct (stored (keyOf (ObjUnstructured u)) objs); [|reflexivity].
  destruct (_ && _); cbn [snd].
  - apply stored_filter_other. exact Hne.
  - apply (stored_replace k (ObjUnstructured u)).
Qed.

Lemma find_stored (k : ObjectKey) (objs : list Object) :
  List.find (has_key k) objs = None <-> stored k objs = false.
Proof.
  unfold stored. induction objs as [|o objs IH]; cbn; [tauto|].
  destruct (has_key k o); cbn; [split; discriminate|exact IH].
Qed.

Lemma get_work_found (ns name : string) (objs : list Object) (work : Work) :
  as_work (store_get (mkKey TWork ns name) objs) = Ok work ->
  keyOf (ObjWork work) = mkKey TWork ns name
  /\ stored (mkKey TWork ns name) objs = true.
Proof.
  unfold store_get.
  destruct (List.find _ objs) as [o|] eqn:Hfind; [|discriminate].
  assert (Hs : stored (mkKey TWork ns name) objs = true).
  { destruct (stored _ objs) eqn:Hs; [reflexivity|].
    apply find_stored in Hs. congruence. }
  apply List.find_some in Hfind as [_ Hk]. apply has_key_eq in Hk.
  destruct o; cbn; try discriminate.
  intros [= ->]. auto.
Qed.

Lemma get_work_not_found (ns name : string) (objs : list Object) (err : error) :
  as_work (store_get (mkKey TWork ns name) objs) = Err err ->
  err = ErrNotFound /\ stored (mkKey TWork ns name) objs = false.
Proof.
  unfold store_get.
  destruct (List.find _ objs) as [o|] eqn:Hfind.
  - apply List.find_some in Hfind as [_ Hk]. apply has_key_eq in Hk.
    destruct o; cbn in *; discriminate.
  - apply find_stored in Hfind. cbn. intros [= <-]. auto.
Qed.

(** What a read or a write of the store comes to: an outage, which leaves
    the objects alone, or the operation on the objects. *)
Lemma api_read_cases {X : Type} (failed : error -> X)
    (serve : list Object -> X) (w : World) :
  (exists msg, fst (api_read failed serve w) = failed (ErrOther msg))
  \/ fst (api_read failed serve w) = serve (objects w).
Proof.
  unfold api_read. destruct (faults w) as [|[msg|] rest]; cbn; eauto.
Qed.

Lemma api_read_objects {X : Type} (failed : error -> X)
    (serve : list Object -> X) (w : World) :
  objects (snd (api_read failed serve w)) = objects w.
Proof.
  unfold api_read. destruct (faults w) as [|[msg|] rest]; reflexivity.
Qed.

Lemma api_write_cases (serve : list Object -> option error * list Object)
    (w : World) :
  (exists msg, fst (api_write serve w) = Some (ErrOther msg)
               /\ objects (snd (api_write serve w)) = objects w)
  \/ (fst (api_write serve w) = fst (serve (objects w))
      /\ objects (snd (api_write serve w)) = snd (serve (objects w))).
Proof.
  unfold api_write. destruct (faults w) as [|[msg|] rest]; cbn; eauto.
Qed.

(** One read of the store: it fails, or it answers from the objects. *)
Ltac read_case :=
  match goal with
  | |- context [api_read ?f ?g ?w] =>
      let Hobj := fresh "Hobj" in
      let Hr := fresh "Hr" in
      let msg := fresh "msg" in
      pose proof (api_read_objects f g w) as Hobj;
      destruct (api_read_cases f g w) as [[msg Hr]|Hr];
      destruct (api_read f g w) as [? ?]; cbn [fst snd] in Hobj, Hr |- *;
      subst
  end.

(** One write to the store: it fails, or it is carried out on the objects. *)
Ltac write_case :=
  match goal with
  | |- context [api_write ?g ?w] =>
      let Hobj := fresh "Hobj" in
      let Hr := fresh "Hr" in
      let msg := fresh "msg" in
      destruct (api_write_cases g w) as [[msg [Hr Hobj]]|[Hr Hobj]];
      destruct (api_write g w) as [? ?]; cbn [fst snd] in Hobj, Hr |- *;
      subst
  end.

(** ** C2 *)

(** C2. For a record whose deletion was requested and which carries the
    cleanup finalizer: whatever the collaborators answer, an update without
    the finalizer is submitted only in a reconciliation in which the store
    reported the Work as not found (on lookup or on delete), and when the
    Work lookup or delete fails with any other error no update is submitted
    and the reconciliation returns that error with a retry after 5 seconds.
    On the in-memory cluster, outages included: if the Work is still stored
    after the reconciliation, the record is still stored with its
    finalizer. *)
Theorem C2_finalizer_gates_deletion :
  (forall (St : Type) (h : handler St) (s : St)
          (r : dynamicController) (req : Request) (u : Unstructured),
     let e := run h (dynamicController_Reconcile r req) s in
     let token := "finalizers." +:+ ToLower (Kind (u_gvk u))
                    +:+ ".resource-request.kratix.io/work-cleanup" in
     omap fetched (trace_of e) = [Ok u] ->
     IsZero (u_DeletionTimestamp u) = false ->
     ContainsFinalizer u token = true ->
     (existsb (updates_without token) (trace_of e) = true ->
      existsb work_not_found (trace_of e) = true)
     /\ (existsb work_other_error (trace_of e) = true ->
         existsb is_update (trace_of e) = false
         /\ exists err : error,
              outcome_of e
              = Returned ({| Requeue := false; RequeueAfter := 5 * Second |},
                          Some err)))
  /\
  (forall (lookup : list Pod -> ListOptions -> result (list Pod)) (w : World)
          (r : dynamicController) (req : Request) (u : Unstructured),
     let e := run (handle lookup) (dynamicController_Reconcile r req) w in
     let token := "finalizers." +:+ ToLower (Kind (u_gvk u))
                    +:+ ".resource-request.kratix.io/work-cleanup" in
     let record := mkKey (TCustom (gvk r)) (Namespace req) (Name req) in
     let work :=
       mkKey TWork "default"
         (promiseIdentifier r +:+ "-" +:+ Namespace req +:+ "-" +:+ Name req) in
     as_unstructured (store_get record (objects w)) = Ok u ->
     IsZero (u_DeletionTimestamp u) = false ->
     ContainsFinalizer u token = true ->
     stored work (objects (state_of e)) = true ->
     exists u' : Unstructured,
       as_unstructured (store_get record (objects (state_of e))) = Ok u'
       /\ ContainsFinalizer u' token = true).
Proof.
  split.
  - intros St h s r req u e token Hu Hdel Hfin. subst e token.
    apply fetched_first in Hu. revert Hu.
    unfold dynamicController_Reconcile, deleteWork, cleanup_finalizer.
    cbn. answer h. intros ->. cbn.
    rewrite Hdel, Hfin. cbn.
    answer h. destruct x as [work|[| |msg]]; cbn.
    + answer h. destruct x as [[| |msg]|]; cbn.
      * answer h. destruct x; cbn; split; try reflexivity; discriminate.
      * split; [discriminate|]. intros _. split; [reflexivity|eauto].
      * split; [discriminate|]. intros _. split; [reflexivity|eauto].
      * split; discriminate.
    + answer h. destruct x; cbn; split; try reflexivity; discriminate.
    + split; [discriminate|]. intros _. split; [reflexivity|eauto].
    + split; [discriminate|]. intros _. split; [reflexivity|eauto].
  - intros lookup w r req u e token record work Hu Hdel Hfin. subst e.
    unfold dynamicController_Reconcile, deleteWork, cleanup_finalizer.
    fold token. cbn. fold record. fold work.
    read_case.
    + (* the record lookup failed *)
      cbn. rewrite Hobj, Hu. eauto.
    + rewrite Hu. cbn. rewrite Hdel. fold token. rewrite Hfin. cbn.
      fold work.
      read_case.
      * cbn. rewrite Hobj0, Hobj, Hu. eauto.
      * rewrite Hobj.
        destruct (as_work (store_get work (objects w))) as [found|err] eqn:Hget; cbn.
        -- apply get_work_found in Hget as [Hkey Hstored].
           cbn in Hkey. rewrite Hkey. fold work in Hstored |- *. write_case; cbn.
           ++ rewrite Hobj1, Hobj0, Hobj, Hu. eauto.
           ++ rewrite Hobj0, Hobj in Hobj1 |- *. unfold store_delete in *.
              rewrite Hstored in *. cbn in *.
              rewrite Hobj1, stored_filter_out. discriminate.
        -- apply get_work_not_found in Hget as [-> Hstored]. cbn.
           write_case; cbn.
           ++ rewrite Hobj1, Hobj0, Hobj, Hu. eauto.
           ++ rewrite Hobj0, Hobj in Hobj1 |- *.
              assert (Hgone : stored work (snd (store_update (RemoveFinalizer u token) (objects w))) = false).
              { rewrite stored_update; [exact Hstored|]. discriminate. }
              destruct (fst (store_update _ _)); cbn; rewrite Hobj1, Hgone; discriminate.
Qed.

(** ** At most one launch *)

Section Launch.

Variable St : Type.
Variable h : handler St.
Variable r : dynamicController.
Variable req : Request.

Let id : string :=
  promiseIdentifier r +:+ "-" +:+ Namespace req +:+ "-" +:+ Name req.

(** [seen s]: the state holds an executor launched for the request. *)
Variable seen : St -> Prop.
Hypothesis seen_launch :
  forall (s : St) (pod : Pod),
    executor_of id pod ->
    fst (h _ (Create (ObjPod pod)) s) = None ->
    seen (snd (h _ (Create (ObjPod pod)) s)).
Hypothesis seen_kept :
  forall (X : Type) (c : call X) (s : St), seen s -> seen (snd (h X c s)).
Hypothesis seen_listed :
  forall s : St, seen s ->
    exists (pod : Pod) (pods : list Pod),
      fst (h _ (ListPods (executor_query id)) s) = Ok (pod :: pods).

Lemma run_seen (A : Type) (p : prog A) (s : St) :
  seen s -> seen (state_of (run h p s)).
Proof.
  revert s. induction p as [a|msg|X c k IH]; intros s Hs; cbn; auto.
Qed.

(** Answer the calls that come before the submission of the executor. *)
Ltac answer_until_launch :=
  match goal with
  | |- context [h ?X ?c ?s] =>
      is_var s;
      lazymatch c with
      | Create (ObjPod _) => fail
      | _ => destruct (h X c s) as [? ?]; cbn [fst snd] in *
      end
  end; cbn.

Lemma launch_step (s : St) :
  let e := run h (dynamicController_Reconcile r req) s in
  (List.length (List.filter is_launch (trace_of e)) <= 1)%nat
  /\ (seen s -> List.filter is_launch (trace_of e) = [])
  /\ (List.filter is_launch (trace_of e) <> [] -> seen (state_of e)).
Proof.
  cbv zeta.
  unfold dynamicController_Reconcile, deleteWork, pipelineHasExecuted,
    NewRequirement.
  fold id. cbn.
  pose proof (seen_kept _ (GetUnstructured (gvk r) req) s) as Hs0.
  answer h. destruct x as [u|err]; cbn.
  2:{ destruct (IsNotFound err); cbn; repeat split; auto; congruence. }
  destruct (negb (IsZero (u_DeletionTimestamp u))); cbn.
  { destruct (ContainsFinalizer u _); cbn; repeat branch h;
      repeat split; auto; congruence. }
  destruct (negb (ContainsFinalizer u _)); cbn.
  { repeat branch h; repeat split; auto; congruence. }
  destruct (validRequirement _ _ _); cbn.
  2:{ repeat split; auto; congruence. }
  change {| lo_Namespace := "default";
            lo_LabelSelector :=
              [ {| rq_key := "kratix-promise-resource-request-id";
                   rq_operator := Equals; rq_values := [id] |} ] |}
    with (executor_query id).
  pose proof (seen_listed s0) as Hlisted.
  answer h.
  destruct x as [[|pod pods]|err]; cbn.
  2:{ repeat split; auto; congruence. }
  all: assert (Hnot : ~ seen s)
    by (intros Hs; destruct (Hlisted (Hs0 Hs)) as (pod & pods & ?); congruence).
  all: destruct (xaasRequestPipeline r) as [|image0 images]; cbn;
    [repeat branch h; repeat split; auto; congruence|].
  all: answer h; destruct x as [envUuid|]; cbn; repeat answer_until_launch.
  all: match goal with
       | |- context [h _ (Create (ObjPod ?pod)) ?s'] =>
           pose proof (seen_launch s' pod) as Hseen
       end.
  all: answer h; destruct x as [err'|]; cbn;
    repeat split; auto; try congruence; try tauto.
  all: intros _; apply Hseen; [|reflexivity].
  all: split; [reflexivity|]; cbn.
  all: rewrite lookup_insert_ne by discriminate; apply lookup_singleton_eq.
Qed.

End Launch.

(** *** Pods in the in-memory cluster *)

Lemma pods_of_app (l l' : list Object) :
  pods_of (l ++ l') = (pods_of l ++ pods_of l')%list.
Proof.
  induction l as [|o l IH]; cbn; [reflexivity|].
  destruct o; cbn; rewrite IH; reflexivity.
Qed.

Lemma pods_filter_out (k : ObjectKey) (objs : list Object) :
  key_type k <> TPod ->
  pods_of (List.filter (fun o => negb (has_key k o)) objs) = pods_of objs.
Proof.
  intros Hk. induction objs as [|o objs IH]; cbn; [reflexivity|].
  destruct (has_key k o) eqn:Ho; cbn.
  - apply has_key_eq in Ho. rewrite IH.
    destruct o; cbn; try reflexivity.
    subst k. cbn in Hk. congruence.
  - destruct o; cbn; rewrite IH; reflexivity.
Qed.

Lemma pods_replace (u : Unstructured) (objs : list Object) :
  pods_of (List.map (fun o => if has_key (keyOf (ObjUnstructured u)) o
                              then ObjUnstructured u else o) objs)
  = pods_of objs.
Proof.
  induction objs as [|o objs IH]; cbn [List.map pods_of]; [reflexivity|].
  destruct (has_key (keyOf (ObjUnstructured u)) o) eqn:Ho.
  - apply has_key_eq in Ho.
    destruct o; cbn in Ho; try discriminate. cbn [pods_of]. exact IH.
  - destruct o; cbn [pods_of]; rewrite IH; reflexivity.
Qed.

Lemma pods_update (u : Unstructured) (objs : list Object) :
  pods_of (snd (store_update u objs)) = pods_of objs.
Proof.
  unfold store_update.
  destruct (stored _ objs); [|reflexivity].
  destruct (_ && _); cbn [snd].
  - apply pods_filter_out. discriminate.
  - apply pods_replace.
Qed.

Lemma pods_delete_work (work : Work) (objs : list Object) :
  pods_of (snd (store_delete (keyOf (ObjWork work)) objs)) = pods_of objs.
Proof.
  unfold store_delete.
  destruct (stored _ objs); [|reflexivity].
  apply pods_filter_out. discriminate.
Qed.

Lemma pods_create (o : Object) (objs : list Object) (pod : Pod) :
  In pod (pods_of objs) -> In pod (pods_of (snd (store_create o objs))).
Proof.
  unfold store_create. destruct (stored _ objs); cbn [snd]; [auto|].
  rewrite pods_of_app, List.in_app_iff. auto.
Qed.

Lemma pods_created (pod : Pod) (objs : list Object) :
  fst (store_create (ObjPod pod) objs) = None ->
  In pod (pods_of (snd (store_create (ObjPod pod) objs))).
Proof.
  unfold store_create. destruct (stored _ objs); cbn; [discriminate|].
  intros _. rewrite pods_of_app, List.in_app_iff. right. cbn. auto.
Qed.

(** No call removes a pod from the cluster. *)
Lemma handle_keeps_pods (lookup : list Pod -> ListOptions -> result (list Pod))
    (X : Type) (c : call X) (w : World) (pod : Pod) :
  In pod (pods_of (objects w)) ->
  In pod (pods_of (objects (snd (handle lookup X c w)))).
Proof.
  intros Hin.
  destruct c; cbn [handle];
    try (rewrite api_read_objects; exact Hin);
    try exact Hin;
    try (match goal with
         | |- context [api_write ?g ?w] =>
             destruct (api_write_cases g w) as [(msg & _ & ->)|[_ ->]];
             [exact Hin|]
         end).
  - apply pods_create. exact Hin.
  - apply pods_create. exact Hin.
  - rewrite pods_update. exact Hin.
  - rewrite pods_delete_work. exact Hin.
  - destruct (uuids w); exact Hin.
Qed.

(** An executor the store accepted is in the cluster. *)
Lemma handle_records_launch (lookup : list Pod -> ListOptions -> result (list Pod))
    (w : World) (pod : Pod) :
  fst (handle lookup _ (Create (ObjPod pod)) w) = None ->
  In pod (pods_of (objects (snd (handle lookup _ (Create (ObjPod pod)) w)))).
Proof.
  cbn [handle].
  destruct (api_write_cases (store_create (ObjPod pod)) w)
    as [(msg & -> & _)|[-> ->]]; [discriminate|].
  apply pods_created.
Qed.

(** The list query of the in-memory cluster observes every stored executor. *)
Lemma list_pods_observes (id : string) (pods : list Pod) (pod : Pod) :
  In pod pods -> executor_of id pod ->
  exists l : list Pod, list_pods pods (executor_query id) = Ok l /\ In pod l.
Proof.
  intros Hin [Hns Hlabel]. eexists. split; [reflexivity|].
  apply List.filter_In. split; [exact Hin|].
  cbn. unfold matches. cbn. rewrite Hns, Hlabel. cbn.
  rewrite String.eqb_refl. reflexivity.
Qed.

(** ** C1 *)

(** C1. Whatever the collaborators answer, a reconciliation whose executor
    lookup comes back with a non-empty list creates nothing (no executor, no
    configuration) and returns the zero result with no error.  On the
    in-memory cluster, outages included, with any list query that observes
    every stored executor of this request (a pod of namespace default whose
    label kratix-promise-resource-request-id is the request's identifier):
    however many times the reconciliation is delivered, at most one executor
    is launched. *)
Theorem C1_at_most_one_launch :
  forall (r : dynamicController) (req : Request),
    let id := promiseIdentifier r +:+ "-" +:+ Namespace req +:+ "-" +:+ Name req in
    (forall (St : Type) (h : handler St) (s : St),
       let e := run h (dynamicController_Reconcile r req) s in
       existsb found_executor (trace_of e) = true ->
       existsb is_create (trace_of e) = false
       /\ outcome_of e = Returned (Result_zero, None))
    /\
    (forall lookup : list Pod -> ListOptions -> result (list Pod),
       (forall (pods : list Pod) (pod : Pod),
          In pod pods -> executor_of id pod ->
          exists l : list Pod,
            lookup pods (executor_query id) = Ok l /\ In pod l) ->
       forall (n : nat) (w : World),
         (List.length
            (List.filter is_launch
               (snd (redeliver (handle lookup)
                       (dynamicController_Reconcile r req) n w))) <= 1)%nat).
Proof.
  intros r req id. split.
  - intros St h s e. subst e.
    unfold dynamicController_Reconcile, deleteWork, pipelineHasExecuted.
    cbn. answer h. destruct x as [u|err]; cbn.
    2:{ destruct (IsNotFound err); cbn; discriminate. }
    destruct (negb (IsZero (u_DeletionTimestamp u))); cbn.
    { destruct (ContainsFinalizer u _); cbn; repeat branch h; discriminate. }
    destruct (negb (ContainsFinalizer u _)); cbn.
    { repeat branch h; discriminate. }
    destruct (NewRequirement _ _ _); cbn; [|discriminate].
    answer h. destruct x as [[|pod pods]|err]; cbn.
    + repeat branch h; discriminate.
    + intros _. split; reflexivity.
    + repeat branch h; discriminate.
  - intros lookup Hobs.
    pose (seen := has_executor id).
    assert (Hlaunch : forall (s : World) (pod : Pod),
      executor_of id pod ->
      fst (handle lookup _ (Create (ObjPod pod)) s) = None ->
      seen (snd (handle lookup _ (Create (ObjPod pod)) s))).
    { intros s pod Hpod Hnone. exists pod. split; [|exact Hpod].
      apply handle_records_launch. exact Hnone. }
    assert (Hkept : forall (X : Type) (c : call X) (s : World),
      seen s -> seen (snd (handle lookup X c s))).
    { intros X c s (pod & Hin & Hpod). exists pod. split; [|exact Hpod].
      apply handle_keeps_pods. exact Hin. }
    assert (Hlisted : forall s : World, seen s ->
      exists (pod : Pod) (pods : list Pod),
        fst (handle lookup _ (ListPods (executor_query id)) s) = Ok (pod :: pods)).
    { intros s (pod & Hin & Hpod). cbn [handle fst].
      destruct (Hobs _ _ Hin Hpod) as (l & -> & Hl).
      destruct l as [|pod' pods]; [destruct Hl|]. eauto. }
    assert (Hall : forall (n : nat) (w : World),
      (List.length
         (List.filter is_launch
            (snd (redeliver (handle lookup)
                    (dynamicController_Reconcile r req) n w))) <= 1)%nat
      /\ (seen w ->
          List.filter is_launch
            (snd (redeliver (handle lookup)
                    (dynamicController_Reconcile r req) n w)) = [])).
    { induction n as [|n IH]; intros w; cbn [redeliver snd].
      - split; [cbn; lia|reflexivity].
      - destruct (launch_step World (handle lookup) r req seen
                    Hlaunch Hkept Hlisted w) as (Hlen & Hnone & Hsome).
        cbv zeta in Hlen, Hnone, Hsome.
        destruct (IH (state_of (run (handle lookup)
                                  (dynamicController_Reconcile r req) w)))
          as [IHlen IHnone].
        rewrite List.filter_app, List.length_app.
        destruct (List.filter is_launch
                    (trace_of (run (handle lookup)
                                 (dynamicController_Reconcile r req) w)))
          as [|ev evs] eqn:Hfirst.
        + cbn. split; [exact IHlen|].
          intros Hw. apply IHnone.
          apply (run_seen World (handle lookup) seen Hkept). exact Hw.
        + rewrite IHnone by (apply Hsome; discriminate).
          split; [cbn in *; lia|].
          intros Hw. specialize (Hnone Hw). discriminate. }
    intros n w. apply Hall.
Qed.

(** *** Creation in the in-memory cluster *)


Lemma key_eqb_refl (k : ObjectKey) : key_eqb k k = true.
Proof. apply key_eqb_eq. reflexivity. Qed.








(** *** The bootstrap reconciler on the in-memory cluster *)




(** ** C4 *)


(** ** Further properties of the bootstrap reconciler *)

(** The Promise the bootstrap works on is the answer to its first call. *)
Lemma fetched_promise_first :
  forall (St : Type) (h : handler St) (s : St) (req : Request) (x : result Promise),
    omap fetched_promise (trace_of (run h (PromiseReconciler_Reconcile req) s)) = [x] ->
    fst (h _ (GetPromise req) s) = x.
Proof.
  intros St h s req x.
  unfold PromiseReconciler_Reconcile, gvkDoesNotExist.
  cbn. answer h. destruct x0 as [promise|err]; cbn.
  2:{ destruct (IsNotFound err); cbn; congruence. }
  destruct (json_Unmarshal (p_XaasCrd promise)) as [crd|]; cbn; [|congruence].
  answer h.
  destruct (crd_Versions crd) as [|version0 versions]; cbn; [congruence|].
  answer h. destruct x1 as [missing|]; cbn; [congruence|].
  answer h. destruct x1 as [err|]; cbn.
  - destruct (IsAlreadyExists err); cbn; congruence.
  - repeat (answer h; cbn). congruence.
Qed.

(** A failed Promise lookup ends the bootstrap: whatever the error (not
    found or any other), no other call is made and the reconciliation
    returns the zero result without error, so nothing is retried. *)
Theorem bootstrap_lookup_error_is_swallowed :
  forall (St : Type) (h : handler St) (s : St) (req : Request) (err : error),
    let e := run h (PromiseReconciler_Reconcile req) s in
    omap fetched_promise (trace_of e) = [Err err] ->
    List.length (trace_of e) = 1%nat
    /\ outcome_of e = Returned (Result_zero, None).
Proof.
  intros St h s req err e Hp. subst e.
  apply fetched_promise_first in Hp. revert Hp.
  unfold PromiseReconciler_Reconcile. cbn. answer h. intros ->. cbn.
  destruct (IsNotFound err); cbn; split; reflexivity.
Qed.

(** A Promise whose schema does not decode is dropped: the schema is never
    submitted, no call follows the lookup, and the reconciliation returns
    the zero result without error. *)
Theorem bootstrap_undecodable_schema_is_dropped :
  forall (St : Type) (h : handler St) (s : St) (req : Request) (promise : Promise),
    let e := run h (PromiseReconciler_Reconcile req) s in
    omap fetched_promise (trace_of e) = [Ok promise] ->
    json_Unmarshal (p_XaasCrd promise) = None ->
    List.length (trace_of e) = 1%nat
    /\ omap submitted_schema (trace_of e) = []
    /\ outcome_of e = Returned (Result_zero, None).
Proof.
  intros St h s req promise e Hp Hraw. subst e.
  apply fetched_promise_first in Hp. revert Hp.
  unfold PromiseReconciler_Reconcile. cbn. answer h. intros ->. cbn.
  rewrite Hraw. cbn. repeat split; reflexivity.
Qed.

(** A schema that decodes but declares no version is submitted to the
    store all the same, and then the read of its first version panics: the
    type directory is not consulted and nothing else is created. *)
Theorem bootstrap_schema_without_version_panics :
  forall (St : Type) (h : handler St) (s : St) (req : Request)
         (promise : Promise) (crd : CustomResourceDefinition),
    let e := run h (PromiseReconciler_Reconcile req) s in
    omap fetched_promise (trace_of e) = [Ok promise] ->
    json_Unmarshal (p_XaasCrd promise) = Some crd ->
    crd_Versions crd = [] ->
    omap submitted_schema (trace_of e) = [crd]
    /\ omap queried_type (trace_of e) = []
    /\ existsb is_create (trace_of e) = false
    /\ exists msg : string, outcome_of e = Panicked msg.
Proof.
  intros St h s req promise crd e Hp Hraw Hversions. subst e.
  apply fetched_promise_first in Hp. revert Hp.
  unfold PromiseReconciler_Reconcile. cbn. answer h. intros ->. cbn.
  rewrite Hraw. cbn. answer h. rewrite Hversions. cbn.
  repeat split; eauto.
Qed.

(** The answer to the schema submission is not looked at: with a schema
    that has a version, the type directory is asked next, for the schema's
    group, kind and first version, whether the submission succeeded,
    collided or failed. *)
Theorem bootstrap_checks_type_whatever_the_submission :
  forall (St : Type) (h : handler St) (s : St) (req : Request)
         (promise : Promise) (crd : CustomResourceDefinition)
         (version0 : CustomResourceDefinitionVersion)
         (versions : list CustomResourceDefinitionVersion),
    let e := run h (PromiseReconciler_Reconcile req) s in
    omap fetched_promise (trace_of e) = [Ok promise] ->
    json_Unmarshal (p_XaasCrd promise) = Some crd ->
    crd_Versions crd = version0 :: versions ->
    omap submitted_schema (trace_of e) = [crd]
    /\ omap queried_type (trace_of e)
       = [({| gk_Group := crd_Group crd; gk_Kind := crd_Kind crd |}, ver_Name version0)].
Proof.
  intros St h s req promise crd version0 versions e Hp Hraw Hversions. subst e.
  apply fetched_promise_first in Hp. revert Hp.
  unfold PromiseReconciler_Reconcile, gvkDoesNotExist.
  cbn. answer h. intros ->. cbn.
  rewrite Hraw. cbn. answer h. rewrite Hversions. cbn.
  answer h. destruct x0 as [missing|]; cbn; [split; reflexivity|].
  answer h. destruct x0 as [err|]; cbn.
  - destruct (IsAlreadyExists err); cbn; split; reflexivity.
  - repeat (answer h; cbn). split; reflexivity.
Qed.

(** When the store refuses the Promise's Work, for whatever reason (it
    exists already, or any other error), the bootstrap stops there: no RBAC
    object and no service account is created, no lifecycle reconciler is
    registered, and the zero result is returned without error. *)
Theorem bootstrap_stops_when_work_is_refused :
  forall (St : Type) (h : handler St) (s : St) (req : Request),
    let e := run h (PromiseReconciler_Reconcile req) s in
    existsb work_rejected (trace_of e) = true ->
    List.length (omap created (trace_of e)) = 1%nat
    /\ omap registration (trace_of e) = []
    /\ outcome_of e = Returned (Result_zero, None).
Proof.
  intros St h s req e. subst e.
  unfold PromiseReconciler_Reconcile, gvkDoesNotExist.
  cbn. answer h. destruct x as [promise|err]; cbn.
  2:{ destruct (IsNotFound err); cbn; discriminate. }
  destruct (json_Unmarshal (p_XaasCrd promise)) as [crd|]; cbn; [|discriminate].
  answer h.
  destruct (crd_Versions crd) as [|version0 versions]; cbn; [discriminate|].
  answer h. destruct x0 as [missing|]; cbn; [discriminate|].
  answer h. destruct x0 as [err|]; cbn.
  - destruct (IsAlreadyExists err); cbn; intros _; repeat split; reflexivity.
  - repeat (answer h; cbn). discriminate.
Qed.

(** Once the store has accepted the Promise's Work, nothing stops the
    bootstrap: whatever the five creations that follow answer, it creates, in
    this order, two cluster roles each followed by its binding and then a
    service account, registers exactly one lifecycle reconciler and returns
    the zero result without error. *)
Theorem bootstrap_completes_once_work_is_accepted :
  forall (St : Type) (h : handler St) (s : St) (req : Request),
    let e := run h (PromiseReconciler_Reconcile req) s in
    existsb work_accepted (trace_of e) = true ->
    (exists (w : Work) (cr1 cr2 : ClusterRole) (crb1 crb2 : ClusterRoleBinding)
            (sa : ServiceAccount),
        omap created (trace_of e)
        = [ObjWork w; ObjClusterRole cr1; ObjClusterRoleBinding crb1;
           ObjClusterRole cr2; ObjClusterRoleBinding crb2; ObjServiceAccount sa])
    /\ List.length (omap registration (trace_of e)) = 1%nat
    /\ outcome_of e = Returned (Result_zero, None).
Proof.
  intros St h s req e. subst e.
  unfold PromiseReconciler_Reconcile, gvkDoesNotExist.
  cbn. answer h. destruct x as [promise|err]; cbn.
  2:{ destruct (IsNotFound err); cbn; discriminate. }
  destruct (json_Unmarshal (p_XaasCrd promise)) as [crd|]; cbn; [|discriminate].
  answer h.
  destruct (crd_Versions crd) as [|version0 versions]; cbn; [discriminate|].
  answer h. destruct x0 as [missing|]; cbn; [discriminate|].
  answer h. destruct x0 as [err|]; cbn.
  - destruct (IsAlreadyExists err); cbn; discriminate.
  - repeat (answer h; cbn). intros _.
    split; [do 6 eexists; reflexivity|]. split; reflexivity.
Qed.

Lemma append_cancel_l (a b c : string) : a +:+ b = a +:+ c -> b = c.
Proof.
  induction a as [|x a IH]; cbn; [auto|]. intros [= H]. auto.
Qed.

(** The access rules the bootstrap creates hang together: each binding
    refers to the cluster role created just before it, the pipeline binding
    grants its role to the service account that is created, and that
    service account lives in the namespace of the Promise's Work under the
    Work's name suffixed -sa. *)
Theorem bootstrap_access_rules_are_consistent :
  forall (St : Type) (h : handler St) (s : St) (req : Request)
         (w : Work) (cr1 cr2 : ClusterRole) (crb1 crb2 : ClusterRoleBinding)
         (sa : ServiceAccount),
    let e := run h (PromiseReconciler_Reconcile req) s in
    omap created (trace_of e)
    = [ObjWork w; ObjClusterRole cr1; ObjClusterRoleBinding crb1;
       ObjClusterRole cr2; ObjClusterRoleBinding crb2; ObjServiceAccount sa] ->
    rr_Name (crb_RoleRef crb1) = cr_Name cr1
    /\ rr_Name (crb_RoleRef crb2) = cr_Name cr2
    /\ cr_Name cr1 <> cr_Name cr2
    /\ List.map (fun sub => (sub_Kind sub, sub_Namespace sub, sub_Name sub))
                (crb_Subjects crb2)
       = [("ServiceAccount", sa_Namespace sa, sa_Name sa)]
    /\ sa_Namespace sa = w_Namespace w
    /\ sa_Name sa = w_Name w +:+ "-sa".
Proof.
  intros St h s req w cr1 cr2 crb1 crb2 sa e. subst e.
  unfold PromiseReconciler_Reconcile, gvkDoesNotExist.
  cbn. answer h. destruct x as [promise|err]; cbn.
  2:{ destruct (IsNotFound err); cbn; discriminate. }
  destruct (json_Unmarshal (p_XaasCrd promise)) as [crd|]; cbn; [|discriminate].
  answer h.
  destruct (crd_Versions crd) as [|version0 versions]; cbn; [discriminate|].
  answer h. destruct x0 as [missing|]; cbn; [discriminate|].
  answer h. destruct x0 as [err|]; cbn.
  - destruct (IsAlreadyExists err); cbn; discriminate.
  - repeat (answer h; cbn). intros [= <- <- <- <- <- <-]. cbn.
    repeat split.
    intros Heq. apply append_cancel_l in Heq. discriminate Heq.
Qed.

(** The lifecycle reconciler a bootstrap registers is built from the
    Promise and its schema: it watches the type that was looked up in the
    type directory (the schema's group, first version and kind), its
    identifier is the name of the Promise's Work, and it carries the
    Promise's cluster selector and pipeline images unchanged. *)
Theorem bootstrap_registers_the_promise :
  forall (St : Type) (h : handler St) (s : St) (req : Request) (promise : Promise)
         (crd : CustomResourceDefinition) (type : GroupVersionKind)
         (r : dynamicController),
    let e := run h (PromiseReconciler_Reconcile req) s in
    omap fetched_promise (trace_of e) = [Ok promise] ->
    json_Unmarshal (p_XaasCrd promise) = Some crd ->
    In (type, r) (omap registration (trace_of e)) ->
    type = gvk r
    /\ Group (gvk r) = crd_Group crd
    /\ Kind (gvk r) = crd_Kind crd
    /\ List.map ver_Name (firstn 1 (crd_Versions crd)) = [Version (gvk r)]
    /\ omap queried_type (trace_of e) = [(GroupKind_of (gvk r), Version (gvk r))]
    /\ List.map w_Name (omap submitted_work (trace_of e)) = [promiseIdentifier r]
    /\ promiseClusterSelector r = p_ClusterSelector promise
    /\ xaasRequestPipeline r = p_XaasRequestPipeline promise.
Proof.
  intros St h s req promise crd type r e Hp Hraw. subst e.
  apply fetched_promise_first in Hp. revert Hp.
  unfold PromiseReconciler_Reconcile, gvkDoesNotExist.
  cbn. answer h. intros ->. cbn.
  rewrite Hraw. cbn. answer h.
  destruct (crd_Versions crd) as [|version0 versions]; cbn; [intros []|].
  answer h. destruct x0 as [missing|]; cbn; [intros []|].
  answer h. destruct x0 as [err|]; cbn.
  - destruct (IsAlreadyExists err); cbn; intros [].
  - repeat (answer h; cbn). intros [[= <- <-]|[]]. cbn.
    repeat split.
Qed.

(** ** Further properties of the lifecycle reconciler *)

(** A failed record lookup ends the reconciliation: whatever the error, no
    other call is made and the zero result is returned without error. *)
Theorem lifecycle_lookup_error_is_swallowed :
  forall (St : Type) (h : handler St) (s : St)
         (r : dynamicController) (req : Request) (err : error),
    let e := run h (dynamicController_Reconcile r req) s in
    omap fetched (trace_of e) = [Err err] ->
    List.length (trace_of e) = 1%nat
    /\ outcome_of e = Returned (Result_zero, None).
Proof.
  intros St h s r req err e. subst e.
  unfold dynamicController_Reconcile, deleteWork, pipelineHasExecuted.
  cbn. answer h. destruct x as [u|err']; cbn.
  - destruct (negb (IsZero (u_DeletionTimestamp u))); cbn.
    + destruct (ContainsFinalizer u _); cbn; repeat branch h; discriminate.
    + destruct (negb (ContainsFinalizer u _)); cbn; repeat branch h; discriminate.
  - destruct (IsNotFound err'); cbn; intros _; split; reflexivity.
Qed.

(** A record that is not deleted and lacks the cleanup finalizer only gets
    its finalizer in this reconciliation: the one call after the lookup is
    the update, no executor lookup and no creation is made, and the answer
    of the update is what the reconciliation returns as its error, with the
    zero result. *)
Theorem lifecycle_adds_finalizer_before_anything_else :
  forall (St : Type) (h : handler St) (s : St)
         (r : dynamicController) (req : Request) (u : Unstructured),
    let e := run h (dynamicController_Reconcile r req) s in
    omap fetched (trace_of e) = [Ok u] ->
    IsZero (u_DeletionTimestamp u) = true ->
    ContainsFinalizer u
      ("finalizers." +:+ ToLower (Kind (u_gvk u))
         +:+ ".resource-request.kratix.io/work-cleanup") = false ->
    List.length (trace_of e) = 2%nat
    /\ existsb is_create (trace_of e) = false
    /\ exists answer : option error,
         omap update_answer (trace_of e) = [answer]
         /\ outcome_of e = Returned (Result_zero, answer).
Proof.
  intros St h s r req u e Hu Hdel Hfin. subst e.
  apply fetched_first in Hu. revert Hu.
  unfold dynamicController_Reconcile, cleanup_finalizer.
  cbn. answer h. intros ->. cbn.
  rewrite Hdel, Hfin. cbn. answer h.
  destruct x as [err|]; cbn; repeat split; eauto.
Qed.

(** A failed executor lookup counts as no executor: for a record that is
    not deleted and carries its finalizer, when the list query fails and
    the Promise declares an image, the reconciler
    creates the configuration and then the executor, whatever the first
    creation answers, and returns the zero result without error whatever
    both answer. *)
Theorem lifecycle_launches_when_lookup_fails :
  forall (St : Type) (h : handler St) (s : St)
         (r : dynamicController) (req : Request) (u : Unstructured),
    let e := run h (dynamicController_Reconcile r req) s in
    omap fetched (trace_of e) = [Ok u] ->
    IsZero (u_DeletionTimestamp u) = true ->
    ContainsFinalizer u
      ("finalizers." +:+ ToLower (Kind (u_gvk u))
         +:+ ".resource-request.kratix.io/work-cleanup") = true ->
    xaasRequestPipeline r <> [] ->
    existsb lookup_failed (trace_of e) = true ->
    (exists (cm : ConfigMap) (pod : Pod),
        omap created (trace_of e) = [ObjConfigMap cm; ObjPod pod])
    /\ outcome_of e = Returned (Result_zero, None).
Proof.
  intros St h s r req u e Hu Hdel Hfin Himages. subst e.
  apply fetched_first in Hu. revert Hu.
  unfold dynamicController_Reconcile, pipelineHasExecuted, cleanup_finalizer.
  cbn. answer h. intros ->. cbn.
  rewrite Hdel, Hfin. cbn.
  destruct (NewRequirement _ _ _); cbn; [|discriminate].
  destruct (xaasRequestPipeline r) as [|image0 images]; [congruence|].
  answer h. destruct x as [[|pod pods]|err]; cbn; repeat branch h;
    intros Hfailed; try discriminate Hfailed; split; eauto.
Qed.

(** Every executor the reconciler submits is well formed with respect to
    its volumes: each volume a container or init container mounts is one
    the pod declares, the writer reads what the pipeline stage wrote (its
    input mount is the volume the stage mounts at /output), and the
    configuration volume refers, by name and by key, to the configuration
    record created just before the executor. *)
Theorem executor_volumes_are_declared :
  forall (St : Type) (h : handler St) (s : St)
         (r : dynamicController) (req : Request) (pod : Pod),
    let e := run h (dynamicController_Reconcile r req) s in
    In pod (omap submitted_pod (trace_of e)) ->
    (forall (c : Container) (volume : string),
        In c (pod_InitContainers pod ++ pod_Containers pod) ->
        In volume (mounted c) ->
        In volume (List.map vol_Name (pod_Volumes pod)))
    /\ (forall stage writer : Container,
          In stage (pod_InitContainers pod) -> In writer (pod_Containers pod) ->
          forall volume : string,
            In {| MountPath := "/output"; vm_Name := volume |} (c_VolumeMounts stage) ->
            c_Name stage <> "reader" ->
            In {| MountPath := "/work-creator-files/input"; vm_Name := volume |}
               (c_VolumeMounts writer))
    /\ exists cm : ConfigMap,
         omap created (trace_of e) = [ObjConfigMap cm; ObjPod pod]
         /\ cm_Namespace cm = pod_Namespace pod
         /\ In {| vol_Name := "promise-cluster-selectors";
                  vol_Source :=
                    ConfigMapSource (cm_Name cm)
                      [ {| ktp_Key := "selectors";
                           ktp_Path := "promise-cluster-selectors" |} ] |}
               (pod_Volumes pod)
         /\ cm_Data cm !! "selectors" = Some (FormatLabels (promiseClusterSelector r)).
Proof.
  intros St h s r req pod e. subst e.
  unfold dynamicController_Reconcile, deleteWork, pipelineHasExecuted.
  cbn. answer h. destruct x as [u|err]; cbn.
  2:{ destruct (IsNotFound err); cbn; intros []. }
  destruct (negb (IsZero (u_DeletionTimestamp u))); cbn.
  { destruct (ContainsFinalizer u _); cbn; repeat branch h; intros []. }
  destruct (negb (ContainsFinalizer u _)); cbn.
  { repeat branch h; intros []. }
  repeat branch h; intros Hin; try (destruct Hin; fail);
    destruct Hin as [<-|[]]; cbn.
  all: split;
    [ intros c volume Hc Hv;
      repeat (destruct Hc as [<-|Hc]; [cbn in Hv; tauto|]); destruct Hc
    | split;
      [ intros stage writer Hs Hw volume Hv Hname;
        destruct Hw as [<-|[]];
        destruct Hs as [<-|[<-|[]]]; cbn in Hv, Hname; [congruence|];
        destruct Hv as [Hv|[Hv|[Hv|[]]]]; try discriminate Hv;
        injection Hv as <-; cbn; tauto
      | eexists; split; [reflexivity|]; cbn; repeat split; try tauto;
        apply lookup_singleton_eq ] ].
Qed.

(** How an executor is named and labelled.  Its name is request-pipeline-,
    the Promise identifier, a dash and a suffix; the suffix is the value of
    TEST_PROMISE_CONTROLLER_POD_IDENTIFIER_UUID when the variable is set,
    in which case no UUID is drawn, and otherwise the first five characters
    of one freshly drawn UUID.  The name does not depend on the request;
    the request is told by the label kratix-promise-resource-request-id. *)
Theorem executor_name_and_labels :
  forall (St : Type) (h : handler St) (s : St)
         (r : dynamicController) (req : Request) (pod : Pod),
    let e := run h (dynamicController_Reconcile r req) s in
    In pod (omap submitted_pod (trace_of e)) ->
    (exists suffix : string,
        pod_Name pod = "request-pipeline-" +:+ promiseIdentifier r +:+ "-" +:+ suffix
        /\ ((omap env_lookup (trace_of e) = [Some suffix]
             /\ omap drawn_uuid (trace_of e) = [])
            \/ (exists uuid : string,
                  omap env_lookup (trace_of e) = [None]
                  /\ omap drawn_uuid (trace_of e) = [uuid]
                  /\ suffix = substring 0 5 uuid)))
    /\ pod_Namespace pod = "default"
    /\ pod_ServiceAccountName pod = promiseIdentifier r +:+ "-sa"
    /\ pod_Labels pod !! "kratix-promise-id" = Some (promiseIdentifier r)
    /\ pod_Labels pod !! "kratix-promise-resource-request-id"
       = Some (promiseIdentifier r +:+ "-" +:+ Namespace req +:+ "-" +:+ Name req).
Proof.
  intros St h s r req pod e. subst e.
  unfold dynamicController_Reconcile, deleteWork, pipelineHasExecuted, getShortUuid.
  cbn. answer h. destruct x as [u|err]; cbn.
  2:{ destruct (IsNotFound err); cbn; intros []. }
  destruct (negb (IsZero (u_DeletionTimestamp u))); cbn.
  { destruct (ContainsFinalizer u _); cbn; repeat branch h; intros []. }
  destruct (negb (ContainsFinalizer u _)); cbn.
  { repeat branch h; intros []. }
  repeat branch h; intros Hin; try (destruct Hin; fail);
    destruct Hin as [<-|[]]; cbn.
  all: split;
    [ eexists; split; [reflexivity|];
      first [ left; split; reflexivity
            | right; eexists; repeat split; reflexivity ]
    | repeat split;
      first [ apply lookup_insert_eq
            | rewrite lookup_insert_ne by discriminate; apply lookup_singleton_eq ] ].
Qed.

(** ** The two reconcilers together *)

(** The reconciler a bootstrap registers runs its executors under the
    identity the same bootstrap provisioned: every executor it submits, for
    any request, uses the service account the bootstrap created (same name,
    same namespace), and carries the name of the Promise's Work as its
    kratix-promise-id label. *)
Theorem executors_run_as_the_provisioned_account :
  forall (St St' : Type) (h : handler St) (h' : handler St') (s : St) (s' : St')
         (promiseReq req : Request) (type : GroupVersionKind)
         (r : dynamicController) (w : Work) (sa : ServiceAccount) (pod : Pod),
    let bootstrap := run h (PromiseReconciler_Reconcile promiseReq) s in
    let launch := run h' (dynamicController_Reconcile r req) s' in
    In (type, r) (omap registration (trace_of bootstrap)) ->
    In (ObjWork w) (omap created (trace_of bootstrap)) ->
    In (ObjServiceAccount sa) (omap created (trace_of bootstrap)) ->
    In pod (omap submitted_pod (trace_of launch)) ->
    pod_ServiceAccountName pod = sa_Name sa
    /\ pod_Namespace pod = sa_Namespace sa
    /\ pod_Labels pod !! "kratix-promise-id" = Some (w_Name w).
Proof.
  intros St St' h h' s s' promiseReq req type r w sa pod bootstrap launch
    Hreg Hwork Hsa Hpod.
  assert (Hr : sa_Name sa = promiseIdentifier r +:+ "-sa"
               /\ sa_Namespace sa = "default"
               /\ w_Name w = promiseIdentifier r).
  { clear Hpod launch. subst bootstrap. revert Hreg Hwork Hsa.
    unfold PromiseReconciler_Reconcile, gvkDoesNotExist.
    cbn. answer h. destruct x as [promise|err]; cbn.
    2:{ destruct (IsNotFound err); cbn; intros []. }
    destruct (json_Unmarshal (p_XaasCrd promise)) as [crd|]; cbn; [|intros []].
    answer h.
    destruct (crd_Versions crd) as [|version0 versions]; cbn; [intros []|].
    answer h. destruct x0 as [missing|]; cbn; [intros []|].
    answer h. destruct x0 as [err|]; cbn.
    - destruct (IsAlreadyExists err); cbn; intros [].
    - repeat (answer h; cbn). intros [[= _ <-]|[]] Hwork Hsa. cbn.
      repeat (destruct Hwork as [Hwork|Hwork]; try discriminate Hwork).
      2:{ destruct Hwork. }
      injection Hwork as <-.
      repeat (destruct Hsa as [Hsa|Hsa]; try discriminate Hsa).
      2:{ destruct Hsa. }
      injection Hsa as <-. cbn. repeat split. }
  destruct Hr as (-> & -> & ->).
  clear Hreg Hwork Hsa bootstrap. subst launch. revert Hpod.
  unfold dynamicController_Reconcile, deleteWork, pipelineHasExecuted.
  cbn. answer h'. destruct x as [u|err]; cbn.
  2:{ destruct (IsNotFound err); cbn; intros []. }
  destruct (negb (IsZero (u_DeletionTimestamp u))); cbn.
  { destruct (ContainsFinalizer u _); cbn; repeat branch h'; intros []. }
  destruct (negb (ContainsFinalizer u _)); cbn.
  { repeat branch h'; intros []. }
  repeat branch h'; intros Hin; try (destruct Hin; fail);
    destruct Hin as [<-|[]]; cbn; repeat split; apply lookup_insert_eq.
Qed.

(** ** Further properties of the delete cascade *)

(** When the Work is found and its deletion is accepted, the finalizer
    stays for this round: the delete is for the Work that was found, the
    record is not updated, and the reconciliation returns without error and
    asks to be run again in 5 seconds. *)
Theorem delete_of_existing_work_keeps_finalizer :
  forall (St : Type) (h : handler St) (s : St)
         (r : dynamicController) (req : Request) (u : Unstructured) (work : Work),
    let e := run h (dynamicController_Reconcile r req) s in
    omap fetched (trace_of e) = [Ok u] ->
    IsZero (u_DeletionTimestamp u) = false ->
    ContainsFinalizer u
      ("finalizers." +:+ ToLower (Kind (u_gvk u))
         +:+ ".resource-request.kratix.io/work-cleanup") = true ->
    omap work_lookup (trace_of e) = [Ok work] ->
    existsb delete_accepted (trace_of e) = true ->
    omap deleted_work (trace_of e) = [work]
    /\ existsb is_update (trace_of e) = false
    /\ outcome_of e
       = Returned ({| Requeue := false; RequeueAfter := 5 * Second |}, None).
Proof.
  intros St h s r req u work e Hu Hdel Hfin. subst e.
  apply fetched_first in Hu. revert Hu.
  unfold dynamicController_Reconcile, deleteWork, cleanup_finalizer.
  cbn. answer h. intros ->. cbn.
  rewrite Hdel, Hfin. cbn.
  answer h. destruct x as [found|err]; cbn.
  - answer h. destruct x as [err|]; cbn.
    + destruct (IsNotFound err); cbn; [answer h; destruct x; cbn|]; discriminate.
    + intros [= ->] _. repeat split.
  - destruct (IsNotFound err); cbn; [answer h; destruct x; cbn|]; discriminate.
Qed.

Lemma get_unstructured_found (k : ObjectKey) (objs : list Object) (u : Unstructured) :
  as_unstructured (store_get k objs) = Ok u ->
  keyOf (ObjUnstructured u) = k
  /\ stored k objs = true
  /\ store_get k objs = Ok (ObjUnstructured u).
Proof.
  unfold store_get.
  destruct (List.find (has_key k) objs) as [o|] eqn:Hfind; [|discriminate].
  assert (Hs : stored k objs = true).
  { destruct (stored k objs) eqn:Hs; [reflexivity|].
    apply find_stored in Hs. congruence. }
  apply List.find_some in Hfind as [_ Hk]. apply has_key_eq in Hk.
  destruct o; cbn; try discriminate.
  intros [= ->]. auto.
Qed.

Lemma get_work_stored (ns name : string) (objs : list Object) :
  stored (mkKey TWork ns name) objs = true ->
  exists found : Work, as_work (store_get (mkKey TWork ns name) objs) = Ok found.
Proof.
  intros Hs. unfold store_get.
  destruct (List.find _ objs) as [o|] eqn:Hfind.
  - apply List.find_some in Hfind as [_ Hk]. apply has_key_eq in Hk.
    destruct o; cbn in *; try discriminate. eauto.
  - apply find_stored in Hfind. congruence.
Qed.

Lemma store_get_filter_other (k k' : ObjectKey) (objs : list Object) :
  k <> k' ->
  store_get k (List.filter (fun o => negb (has_key k' o)) objs) = store_get k objs.
Proof.
  intros Hne. unfold store_get. induction objs as [|o objs IH]; cbn; [reflexivity|].
  destruct (has_key k' o) eqn:Hk'; cbn.
  - destruct (has_key k o) eqn:Hk; [|exact IH].
    apply has_key_eq in Hk, Hk'. congruence.
  - destruct (has_key k o); [reflexivity|exact IH].
Qed.

Lemma store_get_not_stored (k : ObjectKey) (objs : list Object) :
  stored k objs = false -> store_get k objs = Err ErrNotFound.
Proof.
  intros Hs. apply find_stored in Hs. unfold store_get. rewrite Hs. reflexivity.
Qed.

Lemma store_get_replace (o' : Object) (objs : list Object) :
  stored (keyOf o') objs = true ->
  store_get (keyOf o')
    (List.map (fun o => if has_key (keyOf o') o then o' else o) objs) = Ok o'.
Proof.
  unfold store_get, stored. induction objs as [|o objs IH]; cbn; [discriminate|].
  destruct (has_key (keyOf o') o) eqn:Hk; cbn.
  - intros _. unfold has_key at 1. rewrite key_eqb_refl. reflexivity.
  - rewrite Hk. exact IH.
Qed.

(** The delete cascade takes two reconciliations.  On the in-memory cluster
    without outages, for a stored record whose deletion was requested and
    which carries the cleanup finalizer, with its Work stored: the first
    reconciliation removes the Work and leaves the record as it is; the
    second removes the finalizer, after which the record is gone from the
    store if that was its last finalizer, and is stored without the cleanup
    finalizer otherwise. *)
Theorem delete_cascade_in_two_reconciliations :
  forall (lookup : list Pod -> ListOptions -> result (list Pod)) (w : World)
         (r : dynamicController) (req : Request) (u : Unstructured),
    let e1 := run (handle lookup) (dynamicController_Reconcile r req) w in
    let e2 := run (handle lookup) (dynamicController_Reconcile r req) (state_of e1) in
    let token := "finalizers." +:+ ToLower (Kind (u_gvk u))
                   +:+ ".resource-request.kratix.io/work-cleanup" in
    let record := mkKey (TCustom (gvk r)) (Namespace req) (Name req) in
    let work :=
      mkKey TWork "default"
        (promiseIdentifier r +:+ "-" +:+ Namespace req +:+ "-" +:+ Name req) in
    faults w = [] ->
    as_unstructured (store_get record (objects w)) = Ok u ->
    IsZero (u_DeletionTimestamp u) = false ->
    ContainsFinalizer u token = true ->
    stored work (objects w) = true ->
    (stored work (objects (state_of e1)) = false
     /\ as_unstructured (store_get record (objects (state_of e1))) = Ok u)
    /\ stored work (objects (state_of e2)) = false
    /\ (u_Finalizers (RemoveFinalizer u token) = [] ->
        stored record (objects (state_of e2)) = false)
    /\ (u_Finalizers (RemoveFinalizer u token) <> [] ->
        as_unstructured (store_get record (objects (state_of e2)))
        = Ok (RemoveFinalizer u token)).
Proof.
  intros lookup w r req u e1 e2 token record work Hfaults Hu Hdel Hfin Hwork.
  destruct w as [objs types ctrls env us fs].
  cbn [faults objects] in Hfaults, Hu, Hwork. subst fs.
  destruct (get_work_stored _ _ _ Hwork) as [found Hfound].
  destruct (get_work_found _ _ _ _ Hfound) as [Hkey _].
  destruct (get_unstructured_found _ _ _ Hu) as (Hrecord & Hstored & Hget).
  fold work in Hfound, Hkey. fold record in Hrecord, Hstored, Hget.
  assert (Hne : record <> work) by discriminate.
  assert (Hne' : work <> record) by discriminate.
  assert (Hfirst : state_of e1
                   = mkWorld (List.filter (fun o => negb (has_key work o)) objs)
                             types ctrls env us []).
  { subst e1. unfold dynamicController_Reconcile, deleteWork, cleanup_finalizer.
    fold token. cbn. fold record. rewrite Hu. cbn. rewrite Hdel.
    fold token. rewrite Hfin. cbn. fold work. rewrite Hfound. cbn.
    change (keyOf (ObjWork found)) with
      (mkKey TWork (w_Namespace found) (w_Name found)) in Hkey.
    rewrite Hkey.
    unfold store_delete. rewrite Hwork. cbn. reflexivity. }
  assert (Hu1 : as_unstructured
                  (store_get record (List.filter (fun o => negb (has_key work o)) objs))
                = Ok u).
  { rewrite store_get_filter_other by exact Hne. exact Hu. }
  split.
  { rewrite Hfirst. cbn. split; [apply stored_filter_out|exact Hu1]. }
  subst e2. rewrite Hfirst.
  set (objs1 := List.filter (fun o => negb (has_key work o)) objs) in *.
  assert (Hwork1 : stored work objs1 = false) by apply stored_filter_out.
  assert (Hstored1 : stored record objs1 = true).
  { unfold objs1. rewrite stored_filter_other by exact Hne. exact Hstored. }
  unfold dynamicController_Reconcile, deleteWork, cleanup_finalizer.
  fold token. cbn. fold record. rewrite Hu1. cbn. rewrite Hdel.
  fold token. rewrite Hfin. cbn. fold work.
  rewrite (store_get_not_stored _ _ Hwork1). cbn.
  set (u' := RemoveFinalizer u token).
  assert (Hkey' : keyOf (ObjUnstructured u') = record) by exact Hrecord.
  assert (Hdel' : IsZero (u_DeletionTimestamp u') = false) by exact Hdel.
  assert (Hupdate : store_update u' objs1
                    = (None,
                       if Nat.eqb (List.length (u_Finalizers u')) 0
                       then List.filter (fun o => negb (has_key record o)) objs1
                       else List.map (fun o => if has_key record o
                                               then ObjUnstructured u' else o) objs1)).
  { unfold store_update. rewrite Hkey', Hstored1, Hdel'. cbn [negb andb].
    destruct (Nat.eqb _ 0); reflexivity. }
  rewrite Hupdate. cbn.
  change (List.filter (fun f => negb (String.eqb f token)) (u_Finalizers u))
    with (u_Finalizers u').
  destruct (u_Finalizers u') as [|f fs] eqn:Hfs; cbn;
    repeat match goal with
           | |- context [existsb (has_key ?k) ?l] =>
               change (existsb (has_key k) l) with (stored k l)
           end.
  - split; [|split].
    + rewrite stored_filter_other by exact Hne'. exact Hwork1.
    + intros _. apply stored_filter_out.
    + congruence.
  - split; [|split].
    + rewrite <- Hkey'. rewrite (stored_replace work (ObjUnstructured u')).
      exact Hwork1.
    + discriminate.
    + intros _. rewrite <- Hkey'.
      rewrite (store_get_replace (ObjUnstructured u')); [reflexivity|].
      rewrite Hkey'. exact Hstored1.
Qed.

(** ** Requests that share an identifier *)

(** The composite identifier joins Promise identifier, namespace and name
    with dashes, so requests whose namespace and name join to the same
    string (team-a/db and team/a-db) get the same identifier and the same
    executor label.  On the in-memory cluster, with a list query that
    observes every stored executor, such requests share one launch: however
    their reconciliations are interleaved, at most one executor is launched
    for all of them together. *)
Theorem requests_with_one_identifier_share_one_launch :
  forall (lookup : list Pod -> ListOptions -> result (list Pod))
         (r : dynamicController) (joined : string) (reqs : list Request),
    let id := promiseIdentifier r +:+ "-" +:+ joined in
    (forall req : Request, In req reqs ->
        Namespace req +:+ "-" +:+ Name req = joined) ->
    (forall (pods : list Pod) (pod : Pod),
        In pod pods -> executor_of id pod ->
        exists l : list Pod, lookup pods (executor_query id) = Ok l /\ In pod l) ->
    forall w : World,
      (List.length
         (List.filter is_launch
            (snd (deliver (handle lookup)
                    (List.map (dynamicController_Reconcile r) reqs) w))) <= 1)%nat.
Proof.
  intros lookup r joined reqs id Hjoined Hobs.
  pose (seen := has_executor id).
  assert (Hkept : forall (X : Type) (c : call X) (s : World),
    seen s -> seen (snd (handle lookup X c s))).
  { intros X c s (pod & Hin & Hpod). exists pod. split; [|exact Hpod].
    apply handle_keeps_pods. exact Hin. }
  assert (Hall : forall w : World,
    (List.length
       (List.filter is_launch
          (snd (deliver (handle lookup)
                  (List.map (dynamicController_Reconcile r) reqs) w))) <= 1)%nat
    /\ (seen w ->
        List.filter is_launch
          (snd (deliver (handle lookup)
                  (List.map (dynamicController_Reconcile r) reqs) w)) = [])).
  { induction reqs as [|req reqs IH]; intros w; cbn [List.map deliver snd].
    - split; [cbn; lia|reflexivity].
    - assert (Hid : promiseIdentifier r +:+ "-" +:+ Namespace req +:+ "-" +:+ Name req
                    = id).
      { unfold id. rewrite <- (Hjoined req) by (left; reflexivity). reflexivity. }
      pose proof (launch_step World (handle lookup) r req seen) as Hstep.
      cbv zeta in Hstep. rewrite Hid in Hstep.
      destruct (Hstep
                  (fun s pod Hpod Hnone =>
                     ex_intro _ pod (conj (handle_records_launch lookup s pod Hnone) Hpod))
                  Hkept
                  (fun s Hs =>
                     match Hs with
                     | ex_intro _ pod (conj Hin Hpod) =>
                         match Hobs _ _ Hin Hpod with
                         | ex_intro _ [] (conj _ Hl) => match Hl with end
                         | ex_intro _ (p :: ps) (conj Heq _) =>
                             ex_intro _ p (ex_intro _ ps Heq)
                         end
                     end)
                  w) as (Hlen & Hnone & Hsome).
      destruct (IH (fun req' Hin => Hjoined req' (or_intror Hin))
                   (state_of (run (handle lookup)
                                (dynamicController_Reconcile r req) w)))
        as [IHlen IHnone].
      rewrite List.filter_app, List.length_app.
      destruct (List.filter is_launch
                  (trace_of (run (handle lookup)
                               (dynamicController_Reconcile r req) w)))
        as [|ev evs] eqn:Hfirst.
      + cbn. split; [exact IHlen|].
        intros Hw. apply IHnone.
        apply (run_seen World (handle lookup) seen Hkept). exact Hw.
      + rewrite IHnone by (apply Hsome; discriminate).
        split; [cbn in *; lia|].
        intros Hw. specialize (Hnone Hw). discriminate. }
  intros w. apply Hall.
Qed.

End Controller.

(** ** The properties on the Redis promise *)

(** The Redis promise reconciled before its type has propagated. *)
Lemma C3_type_gate_redis :
  let e := run (handle list_pods)
             (PromiseReconciler_Reconcile sample_Unmarshal (-1) redisRequest)
             (world_of [ObjPromise redisPromise] []) in
  existsb type_missing (trace_of e) = true
  /\ existsb is_create (trace_of e) = false
  /\ existsb is_registration (trace_of e) = false
  /\ outcome_of e
     = Returned ({| Requeue := false; RequeueAfter := 5 * Second |}, None).
Proof.
  cbv zeta. split; [vm_compute; reflexivity|].
  apply (C3_type_propagation_gate sample_Unmarshal (-1) World (handle list_pods)).
  vm_compute. reflexivity.
Defined.

(** The Work of the Redis promise: redis-default, selector env=dev. *)
Lemma C5_redis_default_work :
  let e := run (handle list_pods)
             (PromiseReconciler_Reconcile sample_Unmarshal (-1) redisRequest)
             (world_of [ObjPromise redisPromise] [redisGvk]) in
  exists w : Work,
    omap submitted_work (trace_of e) = [w]
    /\ w_Name w = "redis-default"
    /\ w_Replicas w = -1
    /\ w_ClusterSelector w = {[ "env" := "dev" ]}
    /\ List.map m_Unstructured (w_Manifests w) = [operatorCrd; operatorDeployment].
Proof.
  cbv zeta.
  destruct (C5_promise_work sample_Unmarshal (-1) World (handle list_pods)
              (world_of [ObjPromise redisPromise] [redisGvk])
              redisRequest redisPromise) as [Hfields Hone];
    [vm_compute; reflexivity|].
  destruct Hone as [w Hw]; [vm_compute; reflexivity|].
  exists w. split; [exact Hw|].
  destruct (Hfields w) as (Hname & _ & Hreplicas & Hselector & Hmanifests);
    [rewrite Hw; left; reflexivity|].
  repeat split; assumption.
Defined.


(** my-redis with an executor in the cluster, and my-redis delivered four
    times from a cluster without one. *)
Lemma C1_my_redis_redelivered :
  let reconcile :=
    dynamicController_Reconcile sample_FormatLabels sample_validRequirement
      (redisController ["imageA"]) myRedisRequest in
  let launched :=
    run (handle list_pods) reconcile
      (world_of [ObjUnstructured (myRedis None [redisFinalizer]);
                 ObjPod myRedisExecutor] []) in
  (existsb found_executor (trace_of launched) = true
   /\ existsb is_create (trace_of launched) = false
   /\ outcome_of launched = Returned (Result_zero, None))
  /\ (List.length
        (List.filter is_launch
           (snd (redeliver (handle list_pods) reconcile 4
                   (world_of [ObjUnstructured (myRedis None [redisFinalizer])] []))))
      <= 1)%nat.
Proof.
  cbv zeta.
  pose proof (C1_at_most_one_launch sample_FormatLabels sample_validRequirement
                (redisController ["imageA"]) myRedisRequest) as [Hfound Honce].
  split.
  - split; [vm_compute; reflexivity|].
    apply (Hfound World (handle list_pods)). vm_compute. reflexivity.
  - apply Honce. intros pods pod. apply list_pods_observes.
Defined.

(** my-redis deleted: with its Work gone, with an outage on the Work lookup,
    and with an outage on the Work deletion. *)
Lemma C2_my_redis_deleted :
  let reconcile :=
    dynamicController_Reconcile sample_FormatLabels sample_validRequirement
      (redisController ["imageA"]) myRedisRequest in
  let record := myRedis (Some 1635600000) [redisFinalizer] in
  let gone := run (handle list_pods) reconcile (world_of [ObjUnstructured record] []) in
  let outage :=
    run (handle list_pods) reconcile
      (set_faults [None; Some "etcdserver: request timed out"]
         (world_of [ObjUnstructured record; ObjWork myRedisWork] [])) in
  let kept :=
    run (handle list_pods) reconcile
      (set_faults [None; None; Some "etcdserver: request timed out"]
         (world_of [ObjUnstructured record; ObjWork myRedisWork] [])) in
  (existsb (updates_without redisFinalizer) (trace_of gone) = true
   /\ existsb work_not_found (trace_of gone) = true)
  /\ (existsb work_other_error (trace_of outage) = true
      /\ existsb is_update (trace_of outage) = false
      /\ exists err : error,
           outcome_of outage
           = Returned ({| Requeue := false; RequeueAfter := 5 * Second |}, Some err))
  /\ (stored (mkKey TWork "default" "redis-default-default-my-redis")
             (objects (state_of kept)) = true
      /\ exists u' : Unstructured,
           as_unstructured
             (store_get (mkKey (TCustom redisGvk) "default" "my-redis")
                        (objects (state_of kept))) = Ok u'
           /\ ContainsFinalizer u' redisFinalizer = true).
Proof.
  cbv zeta.
  pose proof (C2_finalizer_gates_deletion sample_FormatLabels sample_validRequirement)
    as [Htrace Hstore].
  split; [|split].
  - split; [vm_compute; reflexivity|].
    apply (Htrace World (handle list_pods)
             (world_of [ObjUnstructured (myRedis (Some 1635600000) [redisFinalizer])] [])
             (redisController ["imageA"]) myRedisRequest
             (myRedis (Some 1635600000) [redisFinalizer]));
      vm_compute; reflexivity.
  - split; [vm_compute; reflexivity|].
    apply (Htrace World (handle list_pods)
             (set_faults [None; Some "etcdserver: request timed out"]
                (world_of [ObjUnstructured (myRedis (Some 1635600000) [redisFinalizer]);
                           ObjWork myRedisWork] []))
             (redisController ["imageA"]) myRedisRequest
             (myRedis (Some 1635600000) [redisFinalizer]));
      vm_compute; reflexivity.
  - split; [vm_compute; reflexivity|].
    apply (Hstore list_pods
             (set_faults [None; None; Some "etcdserver: request timed out"]
                (world_of [ObjUnstructured (myRedis (Some 1635600000) [redisFinalizer]);
                           ObjWork myRedisWork] []))
             (redisController ["imageA"]) myRedisRequest
             (myRedis (Some 1635600000) [redisFinalizer]));
      vm_compute; reflexivity.
Defined.

(** C6, as stated, fails on a Redis instance: the record submitted by the
    first reconciliation carries one finalizer, and it is not
    redis-cleanup. *)
Lemma C6_redis_cleanup_is_not_the_token :
  let e := run (handle list_pods)
             (dynamicController_Reconcile sample_FormatLabels sample_validRequirement
                (redisController ["imageA"]) myRedisRequest)
             (world_of [ObjUnstructured (myRedis None [])] []) in
  exists o : Unstructured,
    omap updated (trace_of e) = [o]
    /\ u_Finalizers o = ["finalizers.redis.resource-request.kratix.io/work-cleanup"]
    /\ ~ In (ToLower "Redis" +:+ "-cleanup") (u_Finalizers o).
Proof.
  cbv zeta. eexists. split; [lazy; reflexivity|].
  split; [reflexivity|].
  cbn. intros [H|[]]. discriminate H.
Qed.

(** The finalizer a Redis instance receives. *)
Lemma C6_redis_finalizer :
  let e := run (handle list_pods)
             (dynamicController_Reconcile sample_FormatLabels sample_validRequirement
                (redisController ["imageA"]) myRedisRequest)
             (world_of [ObjUnstructured (myRedis None [])] []) in
  omap updated (trace_of e)
  = [myRedis None ["finalizers.redis.resource-request.kratix.io/work-cleanup"]].
Proof.
  cbv zeta.
  apply (C6_finalizer_token sample_FormatLabels sample_validRequirement
           World (handle list_pods)
           (world_of [ObjUnstructured (myRedis None [])] [])
           (redisController ["imageA"]) myRedisRequest (myRedis None []));
    vm_compute; reflexivity.
Defined.

(** C7, as stated, fails on a Promise that declares two images: the
    executor has one declared-image stage, and the second image is in none
    of its containers. *)
Lemma C7_second_image_not_run :
  let r := redisController ["imageA"; "imageB"] in
  let e := run (handle list_pods)
             (dynamicController_Reconcile sample_FormatLabels sample_validRequirement
                r myRedisRequest)
             (world_of [ObjUnstructured (myRedis None [redisFinalizer])] []) in
  exists pod : Pod,
    omap submitted_pod (trace_of e) = [pod]
    /\ List.length (xaasRequestPipeline r) = 2%nat
    /\ List.map c_Image (pod_InitContainers pod) = ["bitnami/kubectl:1.20.10"; "imageA"]
    /\ ~ In "imageB" (List.map c_Image (pod_InitContainers pod ++ pod_Containers pod)).
Proof.
  cbv zeta. eexists. split; [lazy; reflexivity|].
  split; [reflexivity|]. split; [reflexivity|].
  cbn. intros [H|[H|[H|[]]]]; discriminate H.
Qed.

(** The executor of my-redis for a Promise with two declared images. *)
Lemma C7_my_redis_executor :
  let r := redisController ["imageA"; "imageB"] in
  let e := run (handle list_pods)
             (dynamicController_Reconcile sample_FormatLabels sample_validRequirement
                r myRedisRequest)
             (world_of [ObjUnstructured (myRedis None [redisFinalizer])] []) in
  exists pod : Pod,
    omap submitted_pod (trace_of e) = [pod]
    /\ exists (image0 : string) (images : list string) (reader : Container),
         xaasRequestPipeline r = image0 :: images
         /\ pod_InitContainers pod
            = [ reader;
                {| c_Name := "xaas-request-pipeline-stage-1";
                   c_Image := image0;
                   c_Command := [];
                   c_VolumeMounts :=
                     [ {| MountPath := "/input"; vm_Name := "input" |};
                       {| MountPath := "/output"; vm_Name := "output" |};
                       {| MountPath := "/metadata"; vm_Name := "metadata" |} ] |} ]
         /\ c_Name reader = "reader"
         /\ List.map c_Name (pod_Containers pod) = ["writer"].
Proof.
  cbv zeta. eexists. split; [lazy; reflexivity|].
  apply (C7_single_pipeline_stage sample_FormatLabels sample_validRequirement
           World (handle list_pods)
           (world_of [ObjUnstructured (myRedis None [redisFinalizer])] [])
           (redisController ["imageA"; "imageB"]) myRedisRequest).
  left. reflexivity.
Defined.

(** C8: the reconciliation that finds the Work gone removes the finalizer
    and updates the record (which thereby leaves the store), and then falls
    through to the error return: it hands back the lookup's not-found error
    together with a retry after 5 seconds. *)
Lemma C8_work_gone_returns_not_found :
  let e := run (handle list_pods)
             (dynamicController_Reconcile sample_FormatLabels sample_validRequirement
                (redisController ["imageA"]) myRedisRequest)
             (world_of [ObjUnstructured (myRedis (Some 1635600000) [redisFinalizer])] []) in
  existsb work_not_found (trace_of e) = true
  /\ omap updated (trace_of e) = [myRedis (Some 1635600000) []]
  /\ existsb update_accepted (trace_of e) = true
  /\ objects (state_of e) = []
  /\ outcome_of e
     = Returned ({| Requeue := false; RequeueAfter := 5 * Second |}, Some ErrNotFound).
Proof. cbv zeta. repeat split; vm_compute; reflexivity. Qed.

(** C9, as stated, fails: the reconciliation of a deleted record without
    finalizer signals a retry. *)
Lemma C9_retry_is_signalled :
  let e := run (handle list_pods)
             (dynamicController_Reconcile sample_FormatLabels sample_validRequirement
                (redisController ["imageA"]) myRedisRequest)
             (world_of [ObjUnstructured (myRedis (Some 1635600000) [])] []) in
  exists res : Result,
    outcome_of e = Returned (res, None)
    /\ RequeueAfter res = 5000000000
    /\ RequeueAfter res <> 0.
Proof.
  cbv zeta. eexists. split; [lazy; reflexivity|].
  split; [reflexivity|]. cbn. discriminate.
Qed.

(** my-redis deleted before it received its finalizer. *)
Lemma C9_my_redis_without_finalizer :
  let e := run (handle list_pods)
             (dynamicController_Reconcile sample_FormatLabels sample_validRequirement
                (redisController ["imageA"]) myRedisRequest)
             (world_of [ObjUnstructured (myRedis (Some 1635600000) [])] []) in
  List.length (trace_of e) = 1%nat
  /\ existsb is_get_work (trace_of e) = false
  /\ existsb is_delete (trace_of e) = false
  /\ existsb is_update (trace_of e) = false
  /\ outcome_of e
     = Returned ({| Requeue := false; RequeueAfter := 5 * Second |}, None).
Proof.
  cbv zeta.
  apply (C9_deleted_without_finalizer sample_FormatLabels sample_validRequirement
           World (handle list_pods)
           (world_of [ObjUnstructured (myRedis (Some 1635600000) [])] [])
           (redisController ["imageA"]) myRedisRequest
           (myRedis (Some 1635600000) []));
    vm_compute; reflexivity.
Defined.

(** my-redis launched for a Promise without images, and with one. *)
Lemma C10_my_redis_launch :
  let active := world_of [ObjUnstructured (myRedis None [redisFinalizer])] [] in
  let empty :=
    run (handle list_pods)
      (dynamicController_Reconcile sample_FormatLabels sample_validRequirement
         (redisController []) myRedisRequest) active in
  let declared :=
    run (handle list_pods)
      (dynamicController_Reconcile sample_FormatLabels sample_validRequirement
         (redisController ["imageA"]) myRedisRequest) active in
  ((exists msg : string, outcome_of empty = Panicked msg)
   /\ existsb is_create (trace_of empty) = false)
  /\ exists res : Result * option error, outcome_of declared = Returned res.
Proof.
  cbv zeta.
  pose proof (C10_empty_pipeline_panics sample_FormatLabels sample_validRequirement)
    as [Hpanic Htotal].
  split.
  - apply (Hpanic World (handle list_pods)
             (world_of [ObjUnstructured (myRedis None [redisFinalizer])] [])
             (redisController []) myRedisRequest (myRedis None [redisFinalizer]));
      vm_compute; reflexivity.
  - apply (Htotal World (handle list_pods)).
    + discriminate.
    + vm_compute. reflexivity.
Defined.

(** ** The further properties on the Redis promise *)

(** No Promise named redis in the store. *)
Lemma bootstrap_of_missing_promise :
  let e := run (handle list_pods)
             (PromiseReconciler_Reconcile sample_Unmarshal (-1) redisRequest)
             (world_of [] [redisGvk]) in
  List.length (trace_of e) = 1%nat
  /\ outcome_of e = Returned (Result_zero, None).
Proof.
  cbv zeta.
  apply (bootstrap_lookup_error_is_swallowed sample_Unmarshal (-1)
           World (handle list_pods) (world_of [] [redisGvk]) redisRequest ErrNotFound).
  vm_compute. reflexivity.
Defined.

(** The Redis promise, read by a decoder that rejects its schema. *)
Lemma bootstrap_of_undecodable_redis :
  let e := run (handle list_pods)
             (PromiseReconciler_Reconcile (fun _ => None) (-1) redisRequest)
             (world_of [ObjPromise redisPromise] [redisGvk]) in
  List.length (trace_of e) = 1%nat
  /\ omap submitted_schema (trace_of e) = []
  /\ outcome_of e = Returned (Result_zero, None).
Proof.
  cbv zeta.
  apply (bootstrap_undecodable_schema_is_dropped (fun _ => None) (-1)
           World (handle list_pods)
           (world_of [ObjPromise redisPromise] [redisGvk]) redisRequest redisPromise).
  - vm_compute. reflexivity.
  - reflexivity.
Defined.

(** The Redis promise with a schema that lists no version. *)
Lemma bootstrap_of_redis_without_version :
  let crd := {| crd_Name := "redis.redis.redis.opstreelabs.in";
                crd_Group := "redis.redis.opstreelabs.in";
                crd_Versions := [];
                crd_Kind := "Redis";
                crd_Plural := "redis" |} in
  let e := run (handle list_pods)
             (PromiseReconciler_Reconcile (fun _ => Some crd) (-1) redisRequest)
             (world_of [ObjPromise redisPromise] [redisGvk]) in
  omap submitted_schema (trace_of e) = [crd]
  /\ omap queried_type (trace_of e) = []
  /\ existsb is_create (trace_of e) = false
  /\ exists msg : string, outcome_of e = Panicked msg.
Proof.
  cbv zeta.
  apply (bootstrap_schema_without_version_panics
           (fun _ => Some {| crd_Name := "redis.redis.redis.opstreelabs.in";
                             crd_Group := "redis.redis.opstreelabs.in";
                             crd_Versions := [];
                             crd_Kind := "Redis";
                             crd_Plural := "redis" |}) (-1)
           World (handle list_pods)
           (world_of [ObjPromise redisPromise] [redisGvk]) redisRequest redisPromise).
  - vm_compute. reflexivity.
  - reflexivity.
  - reflexivity.
Defined.

(** The Redis promise whose schema is already stored: the submission
    collides and the type directory is asked all the same. *)
Lemma bootstrap_of_redis_with_stored_schema :
  let e := run (handle list_pods)
             (PromiseReconciler_Reconcile sample_Unmarshal (-1) redisRequest)
             (world_of [ObjPromise redisPromise; ObjCRD redisCrd] []) in
  omap submitted_schema (trace_of e) = [redisCrd]
  /\ omap queried_type (trace_of e)
     = [({| gk_Group := "redis.redis.opstreelabs.in"; gk_Kind := "Redis" |}, "v1beta1")].
Proof.
  cbv zeta.
  apply (bootstrap_checks_type_whatever_the_submission sample_Unmarshal (-1)
           World (handle list_pods)
           (world_of [ObjPromise redisPromise; ObjCRD redisCrd] [])
           redisRequest redisPromise redisCrd {| ver_Name := "v1beta1" |} []).
  - vm_compute. reflexivity.
  - reflexivity.
  - reflexivity.
Defined.

(** The Redis promise on a store that holds a Work named redis-default
    already, and on one where the Work creation is cut by an outage. *)
Lemma bootstrap_of_redis_with_stored_work :
  let stored_work :=
    {| w_Name := "redis-default"; w_Namespace := "default"; w_Replicas := -1;
       w_ClusterSelector := ∅; w_Manifests := [] |} in
  let collided :=
    run (handle list_pods)
      (PromiseReconciler_Reconcile sample_Unmarshal (-1) redisRequest)
      (world_of [ObjPromise redisPromise; ObjWork stored_work] [redisGvk]) in
  let outage :=
    run (handle list_pods)
      (PromiseReconciler_Reconcile sample_Unmarshal (-1) redisRequest)
      (set_faults [None; None; Some "etcdserver: request timed out"]
         (world_of [ObjPromise redisPromise] [redisGvk])) in
  (List.length (omap created (trace_of collided)) = 1%nat
   /\ omap registration (trace_of collided) = []
   /\ outcome_of collided = Returned (Result_zero, None))
  /\ (List.length (omap created (trace_of outage)) = 1%nat
      /\ omap registration (trace_of outage) = []
      /\ outcome_of outage = Returned (Result_zero, None)).
Proof.
  cbv zeta. split.
  - apply (bootstrap_stops_when_work_is_refused sample_Unmarshal (-1)
             World (handle list_pods)).
    vm_compute. reflexivity.
  - apply (bootstrap_stops_when_work_is_refused sample_Unmarshal (-1)
             World (handle list_pods)).
    vm_compute. reflexivity.
Defined.

(** The Redis promise on a store where every RBAC creation is cut by an
    outage: the registration is made all the same. *)
Lemma bootstrap_of_redis_without_access_rules :
  let e := run (handle list_pods)
             (PromiseReconciler_Reconcile sample_Unmarshal (-1) redisRequest)
             (set_faults [None; None; None; Some "forbidden"; Some "forbidden";
                          Some "forbidden"; Some "forbidden"; Some "forbidden"]
                (world_of [ObjPromise redisPromise] [redisGvk])) in
  (exists (w : Work) (cr1 cr2 : ClusterRole) (crb1 crb2 : ClusterRoleBinding)
          (sa : ServiceAccount),
      omap created (trace_of e)
      = [ObjWork w; ObjClusterRole cr1; ObjClusterRoleBinding crb1;
         ObjClusterRole cr2; ObjClusterRoleBinding crb2; ObjServiceAccount sa])
  /\ List.length (omap registration (trace_of e)) = 1%nat
  /\ outcome_of e = Returned (Result_zero, None).
Proof.
  cbv zeta.
  apply (bootstrap_completes_once_work_is_accepted sample_Unmarshal (-1)
           World (handle list_pods)).
  vm_compute. reflexivity.
Defined.

(** The access rules of the Redis promise. *)
Lemma bootstrap_of_redis_access_rules :
  let e := run (handle list_pods)
             (PromiseReconciler_Reconcile sample_Unmarshal (-1) redisRequest)
             (world_of [ObjPromise redisPromise] [redisGvk]) in
  exists (w : Work) (cr1 cr2 : ClusterRole) (crb1 crb2 : ClusterRoleBinding)
         (sa : ServiceAccount),
    omap created (trace_of e)
    = [ObjWork w; ObjClusterRole cr1; ObjClusterRoleBinding crb1;
       ObjClusterRole cr2; ObjClusterRoleBinding crb2; ObjServiceAccount sa]
    /\ rr_Name (crb_RoleRef crb1) = cr_Name cr1
    /\ rr_Name (crb_RoleRef crb2) = cr_Name cr2
    /\ cr_Name cr1 <> cr_Name cr2
    /\ List.map (fun sub => (sub_Kind sub, sub_Namespace sub, sub_Name sub))
                (crb_Subjects crb2)
       = [("ServiceAccount", sa_Namespace sa, sa_Name sa)]
    /\ sa_Namespace sa = w_Namespace w
    /\ sa_Name sa = w_Name w +:+ "-sa".
Proof.
  cbv zeta. do 6 eexists. split; [lazy; reflexivity|].
  apply (bootstrap_access_rules_are_consistent sample_Unmarshal (-1)
           World (handle list_pods)
           (world_of [ObjPromise redisPromise] [redisGvk]) redisRequest).
  lazy. reflexivity.
Defined.

(** The reconciler registered for the Redis promise. *)
Lemma bootstrap_of_redis_registration :
  let e := run (handle list_pods)
             (PromiseReconciler_Reconcile sample_Unmarshal (-1) redisRequest)
             (world_of [ObjPromise redisPromise] [redisGvk]) in
  omap registration (trace_of e) = [(redisGvk, redisController ["imageA"])]
  /\ omap queried_type (trace_of e) = [(GroupKind_of redisGvk, "v1beta1")]
  /\ List.map w_Name (omap submitted_work (trace_of e)) = ["redis-default"].
Proof.
  cbv zeta. split; [vm_compute; reflexivity|].
  destruct (bootstrap_registers_the_promise sample_Unmarshal (-1)
              World (handle list_pods)
              (world_of [ObjPromise redisPromise] [redisGvk]) redisRequest
              redisPromise redisCrd redisGvk (redisController ["imageA"]))
    as (_ & _ & _ & _ & Hquery & Hwork & _).
  - vm_compute. reflexivity.
  - reflexivity.
  - left. vm_compute. reflexivity.
  - split; [exact Hquery|exact Hwork].
Defined.

(** my-redis looked up during an outage of the API server. *)
Lemma lifecycle_of_my_redis_in_outage :
  let e := run (handle list_pods)
             (dynamicController_Reconcile sample_FormatLabels sample_validRequirement
                (redisController ["imageA"]) myRedisRequest)
             (set_faults [Some "etcdserver: request timed out"]
                (world_of [ObjUnstructured (myRedis None [])] [])) in
  List.length (trace_of e) = 1%nat
  /\ outcome_of e = Returned (Result_zero, None).
Proof.
  cbv zeta.
  apply (lifecycle_lookup_error_is_swallowed sample_FormatLabels sample_validRequirement
           World (handle list_pods)
           (set_faults [Some "etcdserver: request timed out"]
              (world_of [ObjUnstructured (myRedis None [])] []))
           (redisController ["imageA"]) myRedisRequest
           (ErrOther "etcdserver: request timed out")).
  vm_compute. reflexivity.
Defined.

(** my-redis without finalizer, its update refused by the store. *)
Lemma lifecycle_of_my_redis_update_refused :
  let e := run (handle list_pods)
             (dynamicController_Reconcile sample_FormatLabels sample_validRequirement
                (redisController ["imageA"]) myRedisRequest)
             (set_faults [None; Some "conflict"]
                (world_of [ObjUnstructured (myRedis None [])] [])) in
  List.length (trace_of e) = 2%nat
  /\ existsb is_create (trace_of e) = false
  /\ outcome_of e = Returned (Result_zero, Some (ErrOther "conflict")).
Proof.
  cbv zeta.
  destruct (lifecycle_adds_finalizer_before_anything_else
              sample_FormatLabels sample_validRequirement
              World (handle list_pods)
              (set_faults [None; Some "conflict"]
                 (world_of [ObjUnstructured (myRedis None [])] []))
              (redisController ["imageA"]) myRedisRequest (myRedis None []))
    as (Hlen & Hcreate & answer & Hanswer & Hout);
    [vm_compute; reflexivity|reflexivity|reflexivity|].
  split; [exact Hlen|]. split; [exact Hcreate|].
  rewrite Hout. injection Hanswer as <-. reflexivity.
Defined.

(** A list query that is always refused. *)
Lemma lifecycle_of_my_redis_lookup_refused :
  let e := run (handle (fun _ _ => Err (ErrOther "forbidden")))
             (dynamicController_Reconcile sample_FormatLabels sample_validRequirement
                (redisController ["imageA"]) myRedisRequest)
             (world_of [ObjUnstructured (myRedis None [redisFinalizer]);
                        ObjPod myRedisExecutor] []) in
  (exists (cm : ConfigMap) (pod : Pod),
      omap created (trace_of e) = [ObjConfigMap cm; ObjPod pod])
  /\ outcome_of e = Returned (Result_zero, None).
Proof.
  cbv zeta.
  apply (lifecycle_launches_when_lookup_fails
           sample_FormatLabels sample_validRequirement
           World (handle (fun _ _ => Err (ErrOther "forbidden")))
           (world_of [ObjUnstructured (myRedis None [redisFinalizer]);
                      ObjPod myRedisExecutor] [])
           (redisController ["imageA"]) myRedisRequest
           (myRedis None [redisFinalizer])).
  - vm_compute. reflexivity.
  - reflexivity.
  - reflexivity.
  - discriminate.
  - vm_compute. reflexivity.
Defined.
